(** * Notes-Email: task lifecycle, sessions and the reminder scheduler

    A shallow embedding of [src/index.js] (the express application) and of
    [src/routes/user.js] (the stand-alone user router), with the properties
    of the specification stated over it.

    Conventions.
    - A JavaScript [Date] is its [getTime()] value: milliseconds since the
      epoch, in [Z].  An invalid date ([NaN]) is [None].
    - The two mongoose collections are finite maps from [_id] to the
      stored fields; a document is an [_id] paired with its fields.
    - A request handler is a computation in a state-and-exception monad;
      the state holds the collections, the node-cron job table, the console,
      the mail transport's call record, [req.session] and the cookies set
      on [res].
    - Everything the application obtains from a library or from the
      environment (date parsing, the local time zone, bcrypt, jsonwebtoken,
      the mail transport) is a field of the class [Runtime]. *)

From Stdlib Require Import ZArith Lia.
From stdpp Require Import gmap strings list fin_maps.

Local Open Scope Z_scope.

(** ** Strings *)

(** The double quote character, as it occurs in the mail templates. *)
Definition dq : string := String (Ascii.ascii_of_nat 34) EmptyString.

(** The line feed of the template literals. *)
Definition nl : string := String (Ascii.ascii_of_nat 10) EmptyString.

(** How a template literal prints a possibly [undefined] string. *)
Definition js_str (o : option string) : string :=
  match o with
  | Some s => s
  | None => "undefined"
  end.

(** JavaScript truthiness of a possibly [undefined] string: [undefined]
    and the empty string are falsy. *)
Definition truthy (o : option string) : bool :=
  match o with
  | Some s => negb (String.eqb s EmptyString)
  | None => false
  end.

(** ** Errors *)

(** A thrown JavaScript error object, reduced to the three properties the
    application reads. *)
Record JsError := mkError {
  err_name : string;
  err_message : string;
  err_statusCode : option Z
}.

(** Modelled from the spec: [AppError.js] is not among the sources.  The
    spec's error taxonomy gives an [AppError] a message and an HTTP status,
    which the error middleware reads back as [err.statusCode]. *)
Definition AppError (message : string) (statusCode : Z) : JsError :=
  mkError "AppError" message (Some statusCode).

(** ** Mail *)

Record Mail := mkMail {
  mail_to : string;
  mail_subject : string;
  mail_text : string
}.

(** ** The runtime: libraries and environment *)

Class Runtime := {
  (** [new Date(s).getTime()], [None] when it is [NaN] *)
  Date_parse : string -> option Z;
  (** local time minus UTC, in milliseconds *)
  tzOffset : Z;
  (** [Date.prototype.toLocaleString] *)
  toLocaleString : Z -> string;
  (** [jwt.sign({ id }, JWT_SECRET, ...)] *)
  jwt_sign : string -> string;
  (** [jwt.sign({ id, email }, JWT_SECRET, ...)] of [routes/user.js] *)
  jwt_sign2 : string -> string -> string;
  (** [bcrypt.compare(candidate, hash)] *)
  bcrypt_compare : string -> string -> bool;
  (** [bcrypt.hash(password, cost)] *)
  bcrypt_hash : string -> string;
  (** [transporter.sendMail]: [None] when the mail is accepted, the
      transport's error otherwise *)
  sendMail : Mail -> option JsError;
  (** whether mongoose casts a string to an [ObjectId] *)
  isObjectId : string -> bool;
  (** the message of mongoose's [CastError] for a path and a value *)
  castMessage : string -> string -> string
}.

(** ** Time *)

Module Clock.

Definition SECOND : Z := 1000.
Definition MINUTE : Z := 60000.
Definition HOUR : Z := 3600 * 1000.
Definition DAY : Z := 24 * HOUR.

Section Local.
Context {rt : Runtime}.

(** [Date.prototype.getSeconds], [getMinutes] and [getHours]: fields of the
    local wall-clock time.  The local zone has the one offset [tzOffset]
    at all times: a zone without daylight-time changes. *)
Definition getSeconds (t : Z) : Z := ((t + tzOffset) / SECOND) mod 60.
Definition getMinutes (t : Z) : Z := ((t + tzOffset) / MINUTE) mod 60.
Definition getHours (t : Z) : Z := ((t + tzOffset) / HOUR) mod 24.

(** The start of the local minute that contains [t]. *)
Definition minuteStart (t : Z) : Z := t - (t + tzOffset) mod MINUTE.

End Local.
End Clock.

(** ** node-cron *)

Module Cron.
Import Clock.

(** The pattern [`${m} ${h} * * *`]: five fields, of which day of month,
    month and day of week are wildcards.  With five fields node-cron takes
    the seconds field to be [0]. *)
Record Pattern := mkPattern {
  cp_minute : Z;
  cp_hour : Z
}.

Section Matching.
Context {rt : Runtime}.

(** Whether a job with pattern [p] runs at the scheduler tick of time [t]
    (node-cron compares the pattern with the local time of each tick). *)
Definition matches (p : Pattern) (t : Z) : bool :=
  (getSeconds t =? 0) && (getMinutes t =? cp_minute p) && (getHours t =? cp_hour p).

End Matching.
End Cron.

(** ** Documents *)

(** The stored fields of a document of the [User] collection;
    [user_password] is the bcrypt hash. *)
Record UserData := mkUserData {
  ud_email : string;
  ud_password : string
}.

(** A [User] document as the application sees it: its [_id] and its
    fields. *)
Definition User : Type := string * UserData.
Definition user_id (u : User) : string := u.1.
Definition user_email (u : User) : string := ud_email u.2.
Definition user_password (u : User) : string := ud_password u.2.

(** The stored fields of a document of the [Task] collection. *)
Record TaskData := mkTaskData {
  td_title : string;
  td_description : option string;
  td_deadline : Z;
  td_user : string;
  td_userEmail : string
}.

(** A [Task] document: its [_id] and its fields. *)
Definition Task : Type := string * TaskData.
Definition task_id (t : Task) : string := t.1.
Definition task_title (t : Task) : string := td_title t.2.
Definition task_description (t : Task) : option string := td_description t.2.
Definition task_deadline (t : Task) : Z := td_deadline t.2.
Definition task_user (t : Task) : string := td_user t.2.
Definition task_userEmail (t : Task) : string := td_userEmail t.2.

Global Instance UserData_eq_dec : EqDecision UserData.
Proof. solve_decision. Defined.

Global Instance TaskData_eq_dec : EqDecision TaskData.
Proof. solve_decision. Defined.

(** ** Process and request state *)

(** [req.session], as far as the application uses it. *)
Record Session := mkSession {
  sess_userId : option string
}.

Inductive ConsoleLine :=
  | console_log (msg : string)
  | console_error (msg : string) (err : JsError).

(** A job registered with node-cron: its pattern and the variables its
    callback closes over. *)
Record Job := mkJob {
  job_pattern : Cron.Pattern;
  job_userEmail : string;
  job_taskTitle : string;
  job_taskDescription : option string;
  job_taskDeadline : Z
}.

Record State := mkState {
  users : gmap string UserData;
  tasks : gmap string TaskData;
  cronJobs : list Job;
  console : list ConsoleLine;
  mailCalls : list Mail;
  session : Session;
  cookies : list (string * string)
}.

Definition set_users (f : gmap string UserData -> gmap string UserData) (s : State) : State :=
  mkState (f (users s)) (tasks s) (cronJobs s) (console s) (mailCalls s) (session s) (cookies s).
Definition set_tasks (f : gmap string TaskData -> gmap string TaskData) (s : State) : State :=
  mkState (users s) (f (tasks s)) (cronJobs s) (console s) (mailCalls s) (session s) (cookies s).
Definition set_cronJobs (f : list Job -> list Job) (s : State) : State :=
  mkState (users s) (tasks s) (f (cronJobs s)) (console s) (mailCalls s) (session s) (cookies s).
Definition set_console (f : list ConsoleLine -> list ConsoleLine) (s : State) : State :=
  mkState (users s) (tasks s) (cronJobs s) (f (console s)) (mailCalls s) (session s) (cookies s).
Definition set_mailCalls (f : list Mail -> list Mail) (s : State) : State :=
  mkState (users s) (tasks s) (cronJobs s) (console s) (f (mailCalls s)) (session s) (cookies s).
Definition set_session (f : Session -> Session) (s : State) : State :=
  mkState (users s) (tasks s) (cronJobs s) (console s) (mailCalls s) (f (session s)) (cookies s).
Definition set_cookies (f : list (string * string) -> list (string * string)) (s : State) : State :=
  mkState (users s) (tasks s) (cronJobs s) (console s) (mailCalls s) (session s) (f (cookies s)).

(** ** The monad of handlers: state, and exceptions carrying a [JsError] *)

Inductive Completion (A : Type) :=
  | Normal (a : A)
  | Throw (e : JsError).
Arguments Normal {A} a.
Arguments Throw {A} e.

Definition M (A : Type) : Type := State -> Completion A * State.

Definition ret {A} (a : A) : M A := fun s => (Normal a, s).

Definition bind {A B} (c : M A) (k : A -> M B) : M B :=
  fun s =>
    match c s with
    | (Normal a, s') => k a s'
    | (Throw e, s') => (Throw e, s')
    end.

Definition throw {A} (e : JsError) : M A := fun s => (Throw e, s).

(** [try { c } catch (error) { h error }] *)
Definition try_catch {A} (c : M A) (h : JsError -> M A) : M A :=
  fun s =>
    match c s with
    | (Normal a, s') => (Normal a, s')
    | (Throw e, s') => h e s'
    end.

Definition get : M State := fun s => (Normal s, s).
Definition modify (f : State -> State) : M unit := fun s => (Normal tt, f s).

Notation "x <~ c ;; k" := (bind c (fun x => k))
  (at level 100, c at next level, right associativity).
Notation "c ;;; k" := (bind c (fun _ => k))
  (at level 100, right associativity).

(** [for (const x of l) { body x }] *)
Fixpoint for_of {A} (l : list A) (body : A -> M unit) : M unit :=
  match l with
  | [] => ret tt
  | x :: l' => body x ;;; for_of l' body
  end.

Definition log (msg : string) : M unit :=
  modify (set_console (fun c => c ++ [console_log msg])).
Definition log_error (msg : string) (e : JsError) : M unit :=
  modify (set_console (fun c => c ++ [console_error msg e])).

(** ** The document store (mongoose models) *)

Module Store.

(** Errors raised by mongoose itself; they carry no [statusCode]. *)
Definition ValidationError (message : string) : JsError :=
  mkError "ValidationError" message None.
Definition CastError (message : string) : JsError :=
  mkError "CastError" message None.
Definition DuplicateEmail : JsError :=
  mkError "DuplicateEmail" "email already registered" None.

(** All documents of a collection, in the store's own order. *)
Definition documents {A} (m : gmap string A) : list (string * A) := map_to_list m.

(** The document with a given [_id], if any. *)
Definition document {A} (m : gmap string A) (id : string) : option (string * A) :=
  match m !! id with
  | Some d => Some (id, d)
  | None => None
  end.

(** [User.findOne({ email })] *)
Definition User_findOne (email : string) : M (option User) :=
  s <~ get ;;
  ret (head (filter (fun u => user_email u = email) (documents (users s)))).

(** [Task.find({ user: userId })], with [userId] possibly [undefined] *)
Definition Task_find (userId : option string) : M (list Task) :=
  s <~ get ;;
  ret (filter (fun t => Some (task_user t) = userId) (documents (tasks s))).

(** [Task.findByIdAndDelete(id)] for an [id] that is an [ObjectId]
    already, as [task._id] is. *)
Definition Task_findByIdAndDelete (id : string) : M unit :=
  modify (set_tasks (delete id)).

Section WithRuntime.
Context {rt : Runtime}.

(** The cast of a string of the request to the [_id] of a query.  The
    identifiers of stored documents are [ObjectId]s; any other string is
    one when [isObjectId] says so, and otherwise the query rejects with a
    [CastError]. *)
Definition castObjectId {A} (m : gmap string A) (id : string) : M string :=
  match m !! id with
  | Some _ => ret id
  | None =>
      if isObjectId id then ret id
      else throw (CastError (castMessage "_id" id))
  end.

(** [User.findById(id)] for a string of the request *)
Definition User_findById (id : string) : M (option User) :=
  s <~ get ;;
  id' <~ castObjectId (users s) id ;;
  ret (document (users s) id').

(** [Task.findById(id)] for a string of the request *)
Definition Task_findById (id : string) : M (option Task) :=
  s <~ get ;;
  id' <~ castObjectId (tasks s) id ;;
  ret (document (tasks s) id').

(** Modelled from the spec: [models/user.js] is not among the sources,
    and the spec has the password never exposed in reads ([index.js]
    asks for it with [select("+password")]).  On a document read without
    that, [this.password] is [undefined] and [bcrypt.compare] rejects. *)
Definition bcryptArgumentsError : JsError :=
  mkError "Error" "data and hash arguments required" None.
Definition comparePassword_unselected (candidate : string) : M bool :=
  throw bcryptArgumentsError.

(** Modelled from the spec: [models/user.js] is not among the sources.
    [verifyPassword(user, plaintextPassword)] compares the candidate with
    the stored hash. *)
Definition comparePassword (u : User) (candidate : string) : bool :=
  bcrypt_compare candidate (user_password u).

(** Modelled from the spec: [models/user.js] is not among the sources.
    [createUser(email, plaintextPassword)] fails with [DuplicateEmail] if
    the email is already present; otherwise it stores the user, with a
    store-assigned identifier and only a hash of the password. *)
Definition User_create (email password : string) : M User :=
  s <~ get ;;
  match head (filter (fun u => user_email u = email) (documents (users s))) with
  | Some _ => throw DuplicateEmail
  | None =>
      let u : User := (fresh (dom (users s)), mkUserData email (bcrypt_hash password)) in
      modify (set_users (insert (user_id u) u.2)) ;;;
      ret u
  end.

(** Modelled from the spec: [models/task.js] is not among the sources.
    The schema requires a non-empty title; the deadline and the owner are
    typed fields of the document already. *)
Definition Task_validate (title : string) : M unit :=
  if String.eqb title EmptyString
  then throw (ValidationError "Path `title` is required.")
  else ret tt.

(** [const t = new Task({...}); await t.save()]: the document is
    validated and inserted under a store-assigned [_id]. *)
Definition Task_save (d : TaskData) : M Task :=
  Task_validate (td_title d) ;;;
  s <~ get ;;
  let t : Task := (fresh (dom (tasks s)), d) in
  modify (set_tasks (insert (task_id t) t.2)) ;;;
  ret t.

(** The fields of the edit form, each possibly absent from [req.body]. *)
Record TaskUpdate := mkTaskUpdate {
  upd_title : option string;
  upd_description : option string;
  upd_deadline : option string
}.

Definition apply_update (u : TaskUpdate) (deadline : option Z) (d : TaskData) : TaskData :=
  mkTaskData
    (default (td_title d) (upd_title u))
    (match upd_description u with Some x => Some x | None => td_description d end)
    (default (td_deadline d) deadline)
    (td_user d) (td_userEmail d).

(** The update's deadline as a date: [Some None] when the update has no
    deadline, [None] when it has one that is no date. *)
Definition update_deadline (u : TaskUpdate) : option (option Z) :=
  match upd_deadline u with
  | None => Some None
  | Some d =>
      match Date_parse d with
      | None => None
      | Some z => Some (Some z)
      end
  end.

Definition cast_deadline (u : TaskUpdate) : M (option Z) :=
  match update_deadline u with
  | None => throw (CastError (castMessage "deadline" (default EmptyString (upd_deadline u))))
  | Some deadline => ret deadline
  end.

(** [Task.findByIdAndUpdate(id, body, { runValidators: true })]: the
    fields present in the update are cast and validated (the schema is
    modelled from the spec, as above), then applied to the document with
    that [_id], if there is one. *)
Definition Task_findByIdAndUpdate (id : string) (u : TaskUpdate) : M unit :=
  s <~ get ;;
  id <~ castObjectId (tasks s) id ;;
  deadline <~ cast_deadline u ;;
  match upd_title u with
  | Some title => Task_validate title
  | None => ret tt
  end ;;;
  modify (set_tasks (alter (apply_update u deadline) id)).

End WithRuntime.
End Store.

(** ** The reminder scheduler ([scheduleReminderEmail] of [index.js]) *)

Module Scheduler.
Import Clock Cron.

Section WithRuntime.
Context {rt : Runtime}.

(** The mail the callback hands to [transporter.sendMail]. *)
Definition reminderMail (j : Job) : Mail :=
  mkMail (job_userEmail j)
    ("Reminder: Task " ++ dq ++ job_taskTitle j ++ dq ++ " is due soon")
    ("This is a reminder that your task " ++ dq ++ job_taskTitle j ++ dq ++ ":" ++ nl
       ++ " " ++ js_str (job_taskDescription j) ++ "." ++ nl
       ++ " is due in one hour. " ++ nl
       ++ "Deadline: " ++ toLocaleString (job_taskDeadline j) ++ nl
       ++ "Please complete it on time.").

(** [await transporter.sendMail(mail)]: the call is recorded, and the
    transport's error, if any, is thrown. *)
Definition transporter_sendMail (m : Mail) : M unit :=
  modify (set_mailCalls (fun l => l ++ [m])) ;;;
  match sendMail m with
  | None => ret tt
  | Some e => throw e
  end.

(** The callback passed to [cron.schedule]. *)
Definition reminderCallback (j : Job) : M unit :=
  try_catch
    (transporter_sendMail (reminderMail j) ;;;
     log "Reminder email sent successfully")
    (fun error => log_error "Error sending reminder email:" error).

(** [cron.schedule(pattern, callback)]: the job joins the job table. *)
Definition cron_schedule (j : Job) : M unit :=
  modify (set_cronJobs (fun js => js ++ [j])).

Definition scheduleReminderEmail (userEmail taskTitle : string)
    (taskDescription : option string) (taskDeadline : Z) : M unit :=
  try_catch
    (let reminderTime := taskDeadline - 3600 * 1000 in
     let cronPattern := mkPattern (getMinutes reminderTime) (getHours reminderTime) in
     cron_schedule (mkJob cronPattern userEmail taskTitle taskDescription taskDeadline))
    (fun error => log_error "Error scheduling reminder email:" error).

(** One tick of node-cron at time [t]: every registered job whose pattern
    matches runs its callback.  Nothing removes a job from the table (the
    application never calls [stop] on the task [cron.schedule] returns). *)
Definition cron_tick (t : Z) : M unit :=
  s <~ get ;;
  for_of (filter (fun j => matches (job_pattern j) t = true) (cronJobs s))
         reminderCallback.

(** The ticks at the times of [ts], in order. *)
Definition cron_run (ts : list Z) : M unit := for_of ts cron_tick.

End WithRuntime.
End Scheduler.

(** ** HTTP responses *)

Inductive View :=
  | view_home (allTasks : list Task)
  | view_show (task : Task)
  | view_error (errorMessage : string).

Inductive Response :=
  | redirect (location : string)
  | render (status : Z) (v : View).

(** ** The express application of [index.js] *)

Module App.
Import Store Scheduler.

(** [res.cookie(name, value, ...)] *)
Definition res_cookie (name value : string) : M unit :=
  modify (set_cookies (fun c => c ++ [(name, value)])).

(** Both error-handling middlewares of [index.js] have this body; the
    first one registered answers. *)
Definition handleValidationError (err : JsError) : M Response :=
  log_error EmptyString err ;;;
  let status :=
    match err_statusCode err with
    | Some c => if c =? 0 then 500 else c
    | None => 500
    end in
  let message :=
    if String.eqb (err_message err) EmptyString
    then "Internal Server Error" else err_message err in
  ret (render status (view_error message)).

(** [next(err)] *)
Definition next_err (err : JsError) : M Response := handleValidationError err.

(** [wrapAsync(fn)]: a rejection of [fn] goes to [next]. *)
Definition wrapAsync (fn : M Response) : M Response := try_catch fn next_err.

(** Modelled from the spec: [middleware/auth.js] is not among the sources.
    The guard checks for a server-side session carrying a user identifier;
    if absent, the request is redirected to the login page and the
    protected handler does not run. *)
Definition protect (handler : M Response) : M Response :=
  s <~ get ;;
  if truthy (sess_userId (session s)) then handler else ret (redirect "/login").

Section WithRuntime.
Context {rt : Runtime}.

Record Credentials := mkCredentials {
  cred_email : string;
  cred_password : string
}.

(** [app.post("/login", ...)] *)
Definition post_login (body : Credentials) : M Response :=
  wrapAsync (
    let email := cred_email body in
    let password := cred_password body in
    user <~ User_findOne email ;;
    match user with
    | None => next_err (AppError "Invalid email or password" 401)
    | Some user =>
        if negb (comparePassword user password)
        then next_err (AppError "Invalid email or password" 401)
        else
          let token := jwt_sign (user_id user) in
          res_cookie "jwt" token ;;;
          modify (set_session (fun _ => mkSession (Some (user_id user)))) ;;;
          log "Session after login:" ;;;
          ret (redirect "/tasks")
    end).

(** [app.post("/signup", ...)] *)
Definition post_signup (body : Credentials) : M Response :=
  wrapAsync (
    let email := cred_email body in
    let password := cred_password body in
    newUser <~ User_create email password ;;
    let token := jwt_sign (user_id newUser) in
    res_cookie "jwt" token ;;;
    log "Session after signup:" ;;;
    ret (redirect "/tasks")).

(** The tasks of [l] whose deadline is before the clock reading taken
    when the filter callback visits them; [clock i] is the value of the
    [i]-th call of [Date.now()]. *)
Fixpoint crossed (clock : nat -> Z) (i : nat) (l : list Task) : list Task :=
  match l with
  | [] => []
  | task :: l' =>
      if task_deadline task <? clock i
      then task :: crossed clock (S i) l'
      else crossed clock (S i) l'
  end.

(** [app.get("/tasks", protect, ...)] *)
Definition get_tasks (clock : nat -> Z) : M Response :=
  protect (wrapAsync (
    s <~ get ;;
    let userId := sess_userId (session s) in
    allTasks <~ Task_find userId ;;
    let tasksToDelete := crossed clock 0 allTasks in
    for_of tasksToDelete (fun task =>
      Task_findByIdAndDelete (task_id task) ;;;
      log ("Deleted task with crossed deadline: " ++ task_title task)) ;;;
    remainingTasks <~ Task_find userId ;;
    ret (render 200 (view_home remainingTasks)))).

(** The fields of [req.body] that the creation handler reads. *)
Record NewTask := mkNewTask {
  nt_title : option string;
  nt_description : option string;
  nt_deadline : option string;
  nt_userId : option string
}.

(** The handler of [app.post("/tasks/new", protect, ...)]; [now] is the
    value of [new Date()] that the handler takes. *)
Definition tasks_new_handler (now : Z) (body : NewTask) : M Response :=
  try_catch (
    let title := nt_title body in
    let description := nt_description body in
    let deadline := nt_deadline body in
    let userId := nt_userId body in
    (if negb (truthy title) || negb (truthy deadline) || negb (truthy userId)
     then throw (AppError "Title, deadline, and user information are required fields" 400)
     else ret tt) ;;;
    deadlineDate <~
      match Date_parse (js_str deadline) with
      | None => throw (AppError "Invalid deadline date" 400)
      | Some d => ret d
      end ;;
    let currentTime := now in
    (if deadlineDate <=? currentTime
     then throw (AppError "Deadline cannot be in the past" 400)
     else ret tt) ;;;
    let oneHourAhead := currentTime + 3600 * 1000 in
    (if deadlineDate <=? oneHourAhead
     then throw (AppError "Deadline must be at least one hour ahead" 400)
     else ret tt) ;;;
    user <~ User_findById (js_str userId) ;;
    match user with
    | None => throw (AppError "User not found" 404)
    | Some user =>
        let userEmail := user_email user in
        newTask <~ Task_save (mkTaskData (js_str title) description deadlineDate
                                (js_str userId) userEmail) ;;
        scheduleReminderEmail userEmail (task_title newTask)
          (task_description newTask) deadlineDate ;;;
        ret (redirect "/tasks")
    end)
  next_err.

Definition post_tasks_new (now : Z) (body : NewTask) : M Response :=
  protect (tasks_new_handler now body).

(** [app.get("/tasks/:id", protect, ...)] *)
Definition get_task (id : string) : M Response :=
  protect (wrapAsync (
    task <~ Task_findById id ;;
    match task with
    | None => throw (AppError "Task not found" 404)
    | Some task => ret (render 200 (view_show task))
    end)).

(** [app.put("/tasks/:id/edit", protect, ...)] *)
Definition put_task_edit (id : string) (body : TaskUpdate) : M Response :=
  protect (wrapAsync (
    Task_findByIdAndUpdate id body ;;;
    ret (redirect ("/tasks/" ++ id)))).

(** [app.delete("/tasks/:id", protect, ...)] *)
Definition delete_task (id : string) : M Response :=
  protect (
    s <~ get ;;
    id <~ castObjectId (tasks s) id ;;
    Task_findByIdAndDelete id ;;;
    ret (redirect "/tasks")).

End WithRuntime.
End App.

(** ** The router of [routes/user.js] *)

Module UserRouter.
Import Store App.

Section WithRuntime.
Context {rt : Runtime}.

Definition createToken (user : User) : string :=
  jwt_sign2 (user_id user) (user_email user).

(** [utils/wrapAsync.js] is not among the sources; the router is taken to
    use the [wrapAsync] that [index.js] defines.

    [router.post("/login", ...)] *)
Definition post_login (body : Credentials) : M Response :=
  wrapAsync (
    let email := cred_email body in
    let password := cred_password body in
    user <~ User_findOne email ;;
    match user with
    | None => throw (AppError "Invalid email or password" 401)
    | Some user =>
        (* no select("+password") here: the password is not read *)
        ok <~ comparePassword_unselected password ;;
        if negb ok
        then throw (AppError "Invalid email or password" 401)
        else
          let token := createToken user in
          res_cookie "jwt" token ;;;
          ret (redirect "/tasks")
    end).

(** [router.post("/signup", ...)] *)
Definition post_signup (body : Credentials) : M Response :=
  wrapAsync (
    let email := cred_email body in
    let password := cred_password body in
    user <~ User_create email password ;;
    let token := createToken user in
    res_cookie "jwt" token ;;;
    ret (redirect "/tasks")).

End WithRuntime.
End UserRouter.

(** ** What a run of reminder callbacks leaves behind *)

Module Trace.
Import Scheduler.

Section WithRuntime.
Context {rt : Runtime}.

(** The console line that one run of the callback of [j] writes. *)
Definition callbackLine (j : Job) : ConsoleLine :=
  match sendMail (reminderMail j) with
  | None => console_log "Reminder email sent successfully"
  | Some e => console_error "Error sending reminder email:" e
  end.

(** The state after the callbacks of the jobs [l] have run, in order. *)
Definition ran (l : list Job) (s : State) : State :=
  mkState (users s) (tasks s) (cronJobs s)
    (console s ++ map callbackLine l)
    (mailCalls s ++ map reminderMail l)
    (session s) (cookies s).

(** The job that [scheduleReminderEmail] registers. *)
Definition reminderJob (userEmail taskTitle : string)
    (taskDescription : option string) (taskDeadline : Z) : Job :=
  mkJob (Cron.mkPattern (Clock.getMinutes (taskDeadline - Clock.HOUR))
                        (Clock.getHours (taskDeadline - Clock.HOUR)))
    userEmail taskTitle taskDescription taskDeadline.

End WithRuntime.

(** The state after the lazy sweep of [app.get("/tasks")] has deleted the
    tasks [l], in order. *)
Definition swept (l : list Task) (s : State) : State :=
  mkState (users s)
    (foldl (fun m t => delete (task_id t) m) (tasks s) l)
    (cronJobs s)
    (console s ++
       map (fun t => console_log ("Deleted task with crossed deadline: " ++ task_title t)) l)
    (mailCalls s) (session s) (cookies s).

(** All three required fields of a creation request are present and
    non-empty. *)
Definition present (body : App.NewTask) : bool :=
  truthy (App.nt_title body) && truthy (App.nt_deadline body) && truthy (App.nt_userId body).

(** The state in which the error middleware leaves [s] after rendering
    the error [e]. *)
Definition failed (e : JsError) (s : State) : State :=
  set_console (fun c => c ++ [console_error EmptyString e]) s.

(** The message on the error page for the error [e]. *)
Definition shown (e : JsError) : string :=
  if String.eqb (err_message e) EmptyString
  then "Internal Server Error" else err_message e.

End Trace.

(** ** A concrete runtime and concrete states, for evaluating the model *)

Module Demo.

(** 2030-01-01T00:00:00Z *)
Definition t2030 : Z := 1893456000000.

(** A date parser that knows two ISO strings. *)
Definition parse (s : string) : option Z :=
  if String.eqb s "2030-01-01T00:00:00Z" then Some t2030
  else if String.eqb s "2030-01-01T00:00:30Z" then Some (t2030 + 30000)
  else None.

Definition show_time (t : Z) : string :=
  if t =? t2030 then "1/1/2030, 12:00:00 AM" else "a date".

(** A hexadecimal digit. *)
Definition is_hex (c : Ascii.ascii) : bool :=
  let n := Ascii.nat_of_ascii c in
  ((48 <=? n) && (n <=? 57) || (97 <=? n) && (n <=? 102) || (65 <=? n) && (n <=? 70))%nat.

Fixpoint all_hex (s : string) : bool :=
  match s with
  | EmptyString => true
  | String c s' => is_hex c && all_hex s'
  end.

(** Twenty-four hexadecimal digits. *)
Definition is_hex24 (s : string) : bool :=
  (String.length s =? 24)%nat && all_hex s.

Definition cast_text (path value : string) : string :=
  ("Cast failed for value " ++ value ++ " at path " ++ path)%string.

(** A well-formed identifier that no sample state stores. *)
Definition absent_id : string := "507f1f77bcf86cd799439011".

(** A runtime in UTC whose transport accepts every mail. *)
Definition rt_ok : Runtime := {|
  Date_parse := parse;
  tzOffset := 0;
  toLocaleString := show_time;
  jwt_sign := fun id => ("jwt:" ++ id)%string;
  jwt_sign2 := fun id email => ("jwt:" ++ id ++ ":" ++ email)%string;
  bcrypt_compare := fun candidate hash => String.eqb ("$2b$" ++ candidate)%string hash;
  bcrypt_hash := fun password => ("$2b$" ++ password)%string;
  sendMail := fun _ => None;
  isObjectId := is_hex24;
  castMessage := cast_text
|}.

Definition ECONNREFUSED : JsError := mkError "Error" "connect ECONNREFUSED" None.

(** The same runtime with a transport that rejects every mail. *)
Definition rt_down : Runtime := {|
  Date_parse := parse;
  tzOffset := 0;
  toLocaleString := show_time;
  jwt_sign := fun id => ("jwt:" ++ id)%string;
  jwt_sign2 := fun id email => ("jwt:" ++ id ++ ":" ++ email)%string;
  bcrypt_compare := fun candidate hash => String.eqb ("$2b$" ++ candidate)%string hash;
  bcrypt_hash := fun password => ("$2b$" ++ password)%string;
  sendMail := fun _ => Some ECONNREFUSED;
  isObjectId := is_hex24;
  castMessage := cast_text
|}.

Definition alice : UserData := mkUserData "alice@example.com" "$2b$wonderland".
Definition bob : UserData := mkUserData "bob@example.com" "$2b$builder".

Definition rent : TaskData :=
  mkTaskData "Pay rent" (Some "before noon") t2030 "u1" "alice@example.com".
Definition old_task : TaskData :=
  mkTaskData "Old" None (t2030 - 10 * 86400000) "u1" "alice@example.com".

(** A fresh process: empty collections, no jobs, an anonymous session. *)
Definition s_empty : State :=
  mkState ∅ ∅ [] [] [] (mkSession None) [].

(** Two users, two tasks of the first one, and a session of user [who]. *)
Definition s_two (who : option string) : State :=
  mkState (<["u1" := alice]> (<["u2" := bob]> ∅))
          (<["t1" := rent]> (<["t0" := old_task]> ∅))
          [] [] [] (mkSession who) [].

End Demo.

(** ** ISO 8601 text of a date ([Date.prototype.toISOString]) *)

Module Iso.
Import Clock.

(** The last decimal digit of [z], as a one-character string. *)
Definition digit (z : Z) : string :=
  String (Ascii.ascii_of_nat (48 + Z.to_nat (z mod 10))) EmptyString.

(** The last [n] decimal digits of [z], zero-padded. *)
Fixpoint pad (n : nat) (z : Z) : string :=
  match n with
  | O => EmptyString
  | S n' => (pad n' (z / 10) ++ digit z)%string
  end.

(** Year, month and day of the proleptic Gregorian calendar for a day
    number counted from 1970-01-01. *)
Definition civil (days : Z) : Z * Z * Z :=
  let z := days + 719468 in
  let era := z / 146097 in
  let doe := z - era * 146097 in
  let yoe := (doe - doe / 1460 + doe / 36524 - doe / 146096) / 365 in
  let doy := doe - (365 * yoe + yoe / 4 - yoe / 100) in
  let mp := (5 * doy + 2) / 153 in
  let d := doy - (153 * mp + 2) / 5 + 1 in
  let m := if mp <? 10 then mp + 3 else mp - 9 in
  let y := yoe + era * 400 + (if m <=? 2 then 1 else 0) in
  (y, m, d).

(** Four digits for the years 0 to 9999, a sign and six digits
    otherwise. *)
Definition year_text (y : Z) : string :=
  if ((0 <=? y) && (y <=? 9999))%Z then pad 4 y
  else ((if (y <? 0)%Z then "-" else "+") ++ pad 6 (Z.abs y))%string.

Definition date_text (t : Z) : string :=
  let '(y, m, d) := civil (t / DAY) in
  (year_text y ++ "-" ++ pad 2 m ++ "-" ++ pad 2 d)%string.

Definition time_text (t : Z) : string :=
  (pad 2 ((t / HOUR) mod 24) ++ ":" ++ pad 2 ((t / MINUTE) mod 60) ++ ":"
     ++ pad 2 ((t / SECOND) mod 60) ++ "." ++ pad 3 (t mod 1000) ++ "Z")%string.

(** The largest time value of a [Date]. *)
Definition MAX_TIME : Z := 8640000000000000.

Definition RangeError : JsError := mkError "RangeError" "Invalid time value" None.

(** [new Date(t).getTime()]: a time value out of range makes the date
    invalid, its time value [NaN] ([None]). *)
Definition new_Date (t : Z) : option Z :=
  if (MAX_TIME <? Z.abs t)%Z then None else Some t.

(** [new Date(t).toISOString()]; it throws for an invalid date. *)
Definition toISOString (t : Z) : M string :=
  match new_Date t with
  | None => throw RangeError
  | Some t => ret (date_text t ++ "T" ++ time_text t)%string
  end.

(** The letter that separates the date from the time. *)
Definition char_T : Ascii.ascii := Ascii.ascii_of_nat 84.

(** [s.split(sep)] for a one-character separator. *)
Fixpoint split (sep : Ascii.ascii) (s : string) : list string :=
  match s with
  | EmptyString => [EmptyString]
  | String c s' =>
      if Ascii.eqb c sep then EmptyString :: split sep s'
      else
        match split sep s' with
        | x :: xs => String c x :: xs
        | [] => [String c EmptyString]
        end
  end.

(** [s] has no occurrence of the character [c]. *)
Fixpoint free (c : Ascii.ascii) (s : string) : bool :=
  match s with
  | EmptyString => true
  | String c' s' => negb (Ascii.eqb c' c) && free c s'
  end.

End Iso.

(** ** The remaining routes of [index.js] *)

Module Pages.
Import Store App Iso.

Inductive Page :=
  | page_login
  | page_signup
  | page_new (userId : option string)
  | page_edit (task : Task) (deadlineDate deadlineTime : string).

Inductive Reply :=
  | reply (r : Response)
  | rendered (p : Page)
  | sent (status : Z) (text : string).

Definition TypeError : JsError :=
  mkError "TypeError" "Cannot read properties of undefined" None.

(** Modelled from the spec: [middleware/auth.js] is not among the sources.
    The guard of [App.protect], for a handler with any kind of answer;
    [denied] is the redirect to the login page. *)
Definition guard {A} (denied : A) (handler : M A) : M A :=
  s <~ get ;;
  if truthy (sess_userId (session s)) then handler else ret denied.

(** [wrapAsync(fn)] for a handler that answers with a [Reply]. *)
Definition wrapAsync (fn : M Reply) : M Reply :=
  try_catch fn (fun err => r <~ next_err err ;; ret (reply r)).

(** [app.get("/", ...)] *)
Definition get_root : M Reply := ret (reply (redirect "/login")).

(** [app.get("/login", ...)] and [app.get("/signup", ...)] *)
Definition get_login : M Reply := ret (rendered page_login).
Definition get_signup : M Reply := ret (rendered page_signup).

(** [app.get("/tasks/new", protect, ...)] *)
Definition get_tasks_new : M Reply :=
  guard (reply (redirect "/login")) (
    s <~ get ;;
    let userId := sess_userId (session s) in
    ret (rendered (page_new userId))).

(** [res.clearCookie(name)]: express sets the cookie to the empty value,
    already expired. *)
Definition res_clearCookie (name : string) : M unit :=
  modify (set_cookies (fun c => c ++ [(name, EmptyString)])).

(** [app.get("/logout", ...)]; [destroyed] is what the session store
    passes to the callback of [req.session.destroy]: [None] when the
    session is removed, the store's error when it is not. *)
Definition get_logout (destroyed : option JsError) : M Reply :=
  res_clearCookie "jwt" ;;;
  match destroyed with
  | Some err =>
      log_error "Error logging out:" err ;;;
      ret (sent 500 "Error logging out")
  | None =>
      modify (set_session (fun _ => mkSession None)) ;;;
      ret (reply (redirect "/login"))
  end.

Section WithRuntime.
Context {rt : Runtime}.

(** [app.get("/tasks/:id/edit", protect, ...)] *)
Definition get_task_edit (id : string) : M Reply :=
  guard (reply (redirect "/login")) (wrapAsync (
    task <~ Task_findById id ;;
    match task with
    | None => r <~ next_err (AppError "Task not found" 404) ;; ret (reply r)
    | Some task =>
        (* deadline.getTime() - deadline.getTimezoneOffset() * 60000 *)
        let deadline := task_deadline task + tzOffset in
        iso <~ toISOString deadline ;;
        iso' <~ toISOString deadline ;;
        match split char_T iso, split char_T iso' with
        | deadlineDate :: _, _ :: part :: _ =>
            let deadlineTime := String.substring 0 5 part in
            ret (rendered (page_edit task deadlineDate deadlineTime))
        | _, _ => throw TypeError
        end
    end)).

End WithRuntime.
End Pages.

(** ** The earlier versions of the application

    [src/unnamed/part_000] and [src/unnamed/part_001] schedule the
    reminder with [setTimeout], or send it when the task is created. *)

Module Legacy.
Import Store Scheduler App.

(** A pending timer of [setTimeout]: the time it is due, and the
    variables its callback closes over. *)
Record Timer := mkTimer {
  tm_due : Z;
  tm_userEmail : string;
  tm_taskTitle : string
}.

(** Node's largest timer delay, in milliseconds. *)
Definition TIMEOUT_MAX : Z := 2147483647.

(** The delay a timer gets: node sets a delay that is below 1, above
    [TIMEOUT_MAX], or [NaN] ([None]) to 1. *)
Definition timer_delay (delay : option Z) : Z :=
  match delay with
  | Some n => if (n <? 1) || (TIMEOUT_MAX <? n) then 1 else n
  | None => 1
  end.

(** [setTimeout(() => sendReminderEmail(userEmail, taskTitle), delay)],
    called at time [now]. *)
Definition setTimeout (now : Z) (userEmail taskTitle : string) (delay : option Z)
    (timers : list Timer) : list Timer :=
  timers ++ [mkTimer (now + timer_delay delay) userEmail taskTitle].

Section WithRuntime.
Context {rt : Runtime}.

Definition reminderMail (userEmail taskTitle : string) : Mail :=
  mkMail userEmail
    ("Reminder: Task " ++ dq ++ taskTitle ++ dq ++ " is due soon")
    ("This is a reminder that your task " ++ dq ++ taskTitle ++ dq
       ++ " is due in one hour. Please complete it on time.").

(** [sendReminderEmail] of [part_000] and [part_001] *)
Definition sendReminderEmail (userEmail taskTitle : string) : M unit :=
  try_catch
    (transporter_sendMail (reminderMail userEmail taskTitle) ;;;
     log "Reminder email sent successfully")
    (fun error => log_error "Error sending reminder email:" error).

(** [app.post("/tasks", protect, ...)] of [part_001]; [doc] is the
    document that [new Task(req.body)] holds, [now] the value of
    [Date.now()], [timers] the pending timers.  The handler answers with
    its response and the pending timers. *)
Definition post_tasks (now : Z) (doc : TaskData) (timers : list Timer)
    : M (Response * list Timer) :=
  Pages.guard (redirect "/login", timers) (
    try_catch (
      newTask <~ Task_save doc ;;
      let oneHourBeforeDeadline := Iso.new_Date (task_deadline newTask - 3600 * 1000) in
      let timers' :=
        setTimeout now (task_userEmail newTask) (task_title newTask)
          ((fun t => t - now) <$> oneHourBeforeDeadline) timers in
      ret (redirect ("/tasks/" ++ task_id newTask), timers'))
    (fun err => r <~ next_err err ;; ret (r, timers))).

(** The handler of [app.post("/tasks/new", ...)] of [part_001], which
    mails the reminder when the task is created. *)
Definition tasks_new_handler (now : Z) (body : NewTask) : M Response :=
  try_catch (
    let title := nt_title body in
    let description := nt_description body in
    let deadline := nt_deadline body in
    let userId := nt_userId body in
    (if negb (truthy title) || negb (truthy deadline) || negb (truthy userId)
     then throw (AppError "Title, deadline, and user information are required fields" 400)
     else ret tt) ;;;
    deadlineDate <~
      match Date_parse (js_str deadline) with
      | None => throw (AppError "Invalid deadline date" 400)
      | Some d => ret d
      end ;;
    let currentTime := now in
    (if deadlineDate <=? currentTime
     then throw (AppError "Deadline cannot be in the past" 400)
     else ret tt) ;;;
    let oneHourAhead := currentTime + 3600 * 1000 in
    (if deadlineDate <=? oneHourAhead
     then throw (AppError "Deadline must be at least one hour ahead" 400)
     else ret tt) ;;;
    user <~ User_findById (js_str userId) ;;
    match user with
    | None => throw (AppError "User not found" 404)
    | Some user =>
        let userEmail := user_email user in
        newTask <~ Task_save (mkTaskData (js_str title) description deadlineDate
                                (js_str userId) userEmail) ;;
        sendReminderEmail userEmail (task_title newTask) ;;;
        ret (redirect "/tasks")
    end)
  next_err.

End WithRuntime.
End Legacy.

(** ** An invariant of the user collection *)

(** No two stored users have the same email. *)
Definition unique_emails (m : gmap string UserData) : Prop :=
  forall id1 id2 d1 d2,
    m !! id1 = Some d1 -> m !! id2 = Some d2 -> ud_email d1 = ud_email d2 -> id1 = id2.

(** ** More concrete inputs *)

Module Samples.
Import Demo.

(** A creation request for user [u2], due at [t2030]. *)
Definition rent_request : App.NewTask :=
  App.mkNewTask (Some "Pay rent") None (Some "2030-01-01T00:00:00Z") (Some "u2").

(** A task due thirty days after [t2030]. *)
Definition far_task : TaskData :=
  mkTaskData "Renew passport" None (t2030 + 30 * Clock.DAY) "u1" "alice@example.com".

(** The sample state with one more task of [u1], stored under a
    well-formed identifier, and a session of [u2]. *)
Definition s_hex : State :=
  set_tasks (insert absent_id rent) (s_two (Some "u2")).

End Samples.

(** * Properties *)

(** ** Time and cron patterns *)

Section CronFacts.
Context {rt : Runtime}.
Import Clock Cron.

Lemma HOUR_eq : HOUR = 3600000.
Proof. reflexivity. Qed.

Lemma DAY_eq : DAY = 86400000.
Proof. reflexivity. Qed.

Lemma getMinutes_range (t : Z) : 0 <= getMinutes t < 60.
Proof. unfold getMinutes. apply Z.mod_pos_bound. lia. Qed.

Lemma getHours_range (t : Z) : 0 <= getHours t < 24.
Proof. unfold getHours. apply Z.mod_pos_bound. lia. Qed.

(** A pattern with in-range fields matches exactly during the first second
    of its minute, every day. *)
Lemma matches_iff (p : Pattern) (t : Z) :
  0 <= cp_minute p < 60 -> 0 <= cp_hour p < 24 ->
  matches p t = true <->
  cp_hour p * HOUR + cp_minute p * MINUTE <= (t + tzOffset) mod DAY
    < cp_hour p * HOUR + cp_minute p * MINUTE + SECOND.
Proof.
  intros Hm Hh. unfold matches, getSeconds, getMinutes, getHours.
  rewrite !andb_true_iff, !Z.eqb_eq.
  rewrite DAY_eq, HOUR_eq. unfold MINUTE, SECOND.
  generalize (t + tzOffset). intros x.
  split.
  - intros [[H1 H2] H3]. Z.div_mod_to_equations. lia.
  - intros H. Z.div_mod_to_equations. lia.
Qed.

(** The pattern derived from a reminder time [r], in terms of the start
    of [r]'s minute. *)
Lemma pattern_minuteStart (r : Z) :
  getHours r * HOUR + getMinutes r * MINUTE = (minuteStart r + tzOffset) mod DAY.
Proof.
  unfold getHours, getMinutes, minuteStart.
  rewrite DAY_eq, HOUR_eq. unfold MINUTE.
  replace (r - (r + tzOffset) mod 60000 + tzOffset)
    with ((r + tzOffset) - (r + tzOffset) mod 60000) by lia.
  generalize (r + tzOffset). intros x.
  Z.div_mod_to_equations. lia.
Qed.

Lemma matches_reminder_iff (r t : Z) :
  matches (mkPattern (getMinutes r) (getHours r)) t = true <->
  (t - minuteStart r) mod DAY < SECOND.
Proof.
  rewrite matches_iff by (simpl; auto using getMinutes_range, getHours_range).
  simpl. rewrite pattern_minuteStart.
  rewrite DAY_eq. unfold SECOND.
  assert (Hs : (minuteStart r + tzOffset) mod 1000 = 0).
  { unfold minuteStart, MINUTE.
    replace (r - (r + tzOffset) mod 60000 + tzOffset)
      with ((r + tzOffset) - (r + tzOffset) mod 60000) by lia.
    generalize (r + tzOffset). intros x. Z.div_mod_to_equations. lia. }
  replace (t - minuteStart r) with ((t + tzOffset) - (minuteStart r + tzOffset)) by lia.
  revert Hs. generalize (minuteStart r + tzOffset), (t + tzOffset). intros a b Hs.
  split; intros H; Z.div_mod_to_equations; lia.
Qed.

(** The job of a reminder runs at the start of the reminder's minute and
    at the same time of day on every later day. *)
Lemma matches_daily (r : Z) (k : nat) :
  matches (mkPattern (getMinutes r) (getHours r))
          (minuteStart r + Z.of_nat k * DAY) = true.
Proof.
  apply matches_reminder_iff.
  replace (minuteStart r + Z.of_nat k * DAY - minuteStart r) with (Z.of_nat k * DAY) by lia.
  rewrite Z.mod_mul by (rewrite DAY_eq; lia). unfold SECOND. lia.
Qed.

(** It runs at no other time of the day. *)
Lemma matches_not_within_day (r t : Z) :
  minuteStart r + SECOND <= t < minuteStart r + DAY ->
  matches (mkPattern (getMinutes r) (getHours r)) t = false.
Proof.
  intros H. apply not_true_is_false. rewrite matches_reminder_iff.
  rewrite DAY_eq in *. unfold SECOND in *.
  rewrite Z.mod_small by lia. lia.
Qed.

Lemma minuteStart_le (r : Z) : minuteStart r <= r < minuteStart r + MINUTE.
Proof.
  unfold minuteStart, MINUTE.
  pose proof (Z.mod_pos_bound (r + tzOffset) 60000 ltac:(lia)). lia.
Qed.

End CronFacts.

(** ** The scheduler *)

Section SchedulerFacts.
Context {rt : Runtime}.
Import Clock Cron Scheduler Trace.

Lemma state_eta (s : State) :
  mkState (users s) (tasks s) (cronJobs s) (console s) (mailCalls s)
          (session s) (cookies s) = s.
Proof. by destruct s. Qed.

Lemma ran_nil (s : State) : ran [] s = s.
Proof. unfold ran. simpl. rewrite !app_nil_r. apply state_eta. Qed.

Lemma ran_cons (j : Job) (l : list Job) (s : State) :
  ran l (ran [j] s) = ran (j :: l) s.
Proof. unfold ran. simpl. by rewrite <- !app_assoc. Qed.

(** One run of the callback: one call of the transport, one console line,
    and a normal completion whatever the transport answers. *)
Lemma reminderCallback_spec (j : Job) (s : State) :
  reminderCallback j s = (Normal tt, ran [j] s).
Proof.
  unfold reminderCallback, try_catch, transporter_sendMail, bind, modify,
    log, log_error, ran, callbackLine. simpl.
  destruct (sendMail (reminderMail j)); reflexivity.
Qed.

Lemma for_of_callbacks (l : list Job) (s : State) :
  for_of l reminderCallback s = (Normal tt, ran l s).
Proof.
  revert s. induction l as [|j l IH]; intros s; simpl.
  - by rewrite ran_nil.
  - unfold bind. rewrite reminderCallback_spec, IH. by rewrite ran_cons.
Qed.

Lemma cron_tick_spec (t : Z) (s : State) :
  cron_tick t s =
  (Normal tt, ran (filter (fun j => matches (job_pattern j) t = true) (cronJobs s)) s).
Proof. unfold cron_tick, bind, get. apply for_of_callbacks. Qed.

Lemma scheduleReminderEmail_spec (userEmail taskTitle : string)
    (taskDescription : option string) (taskDeadline : Z) (s : State) :
  scheduleReminderEmail userEmail taskTitle taskDescription taskDeadline s =
  (Normal tt,
   set_cronJobs
     (fun js => js ++ [reminderJob userEmail taskTitle taskDescription taskDeadline]) s).
Proof. reflexivity. Qed.

(** C1, as the code has it.  The job that [scheduleReminderEmail]
    registers for a task stays in the job table after it has run, and it
    runs at the start of the reminder's minute on the day of the reminder
    and again on each later day [k]: the reminder is recurring, it is not
    fired once and discarded. *)
Theorem reminder_recurs_daily (userEmail taskTitle : string)
    (taskDescription : option string) (taskDeadline : Z) (s : State) (k : nat) :
  let j := reminderJob userEmail taskTitle taskDescription taskDeadline in
  let s1 := (scheduleReminderEmail userEmail taskTitle taskDescription taskDeadline s).2 in
  let s2 := (cron_tick (minuteStart (taskDeadline - HOUR) + Z.of_nat k * DAY) s1).2 in
  cronJobs s1 = cronJobs s ++ [j] /\
  cronJobs s2 = cronJobs s1 /\
  last (mailCalls s2) = Some (reminderMail j).
Proof.
  intros j s1 s2. subst s1 s2.
  rewrite scheduleReminderEmail_spec, cron_tick_spec. simpl.
  split; [reflexivity|]. split; [reflexivity|].
  rewrite filter_app, map_app, app_assoc.
  rewrite filter_cons_True by (simpl; apply matches_daily).
  rewrite filter_nil. simpl. apply last_snoc.
Qed.

(** C2, as the code has it.  A reminder whose time has passed at
    scheduling time is registered, but no tick between the scheduling time
    and the same time of the next day sends it: it is not fired
    immediately.  It is sent at the first tick of the reminder's minute
    on the next day. *)
Theorem past_reminder_waits_a_day (userEmail taskTitle : string)
    (taskDescription : option string) (taskDeadline : Z) (s : State) (now t : Z) :
  cronJobs s = [] ->
  taskDeadline - HOUR + SECOND <= now ->
  now <= t < minuteStart (taskDeadline - HOUR) + DAY ->
  let j := reminderJob userEmail taskTitle taskDescription taskDeadline in
  let s1 := (scheduleReminderEmail userEmail taskTitle taskDescription taskDeadline s).2 in
  cronJobs s1 = [j] /\
  mailCalls (cron_tick t s1).2 = mailCalls s /\
  mailCalls (cron_tick (minuteStart (taskDeadline - HOUR) + DAY) s1).2
    = mailCalls s ++ [reminderMail j].
Proof.
  intros Hjobs Hpast Ht j s1. subst s1.
  rewrite scheduleReminderEmail_spec, !cron_tick_spec. simpl.
  rewrite Hjobs. simpl.
  pose proof (minuteStart_le (taskDeadline - HOUR)) as Hms.
  split; [reflexivity|]. split.
  - rewrite filter_cons_False, filter_nil.
    + simpl. by rewrite app_nil_r.
    + simpl. rewrite matches_not_within_day; [done|]. lia.
  - rewrite filter_cons_True, filter_nil; [done|].
    simpl. pose proof (matches_daily (taskDeadline - HOUR) 1) as H1.
    by replace (Z.of_nat 1 * DAY) with DAY in H1 by lia.
Qed.

(** C5.  When the transport rejects the mail, the callback completes
    normally: the error is written to the console, the transport has been
    called once and is not called again, the job table and the rest of
    the state are as before.  A tick of the scheduler and
    [scheduleReminderEmail] complete normally for every transport, and
    scheduling calls the transport not at all. *)
Theorem notifier_failure_absorbed (j : Job) (s : State) (e : JsError) :
  sendMail (reminderMail j) = Some e ->
  reminderCallback j s =
    (Normal tt,
     mkState (users s) (tasks s) (cronJobs s)
       (console s ++ [console_error "Error sending reminder email:" e])
       (mailCalls s ++ [reminderMail j])
       (session s) (cookies s)) /\
  (forall t, (cron_tick t s).1 = Normal tt /\ cronJobs (cron_tick t s).2 = cronJobs s) /\
  (forall userEmail taskTitle taskDescription taskDeadline,
     let r := scheduleReminderEmail userEmail taskTitle taskDescription taskDeadline s in
     r.1 = Normal tt /\ mailCalls r.2 = mailCalls s).
Proof.
  intros He. split; [|split].
  - rewrite reminderCallback_spec. unfold ran, callbackLine. simpl. by rewrite He.
  - intros t. by rewrite cron_tick_spec.
  - intros userEmail taskTitle taskDescription taskDeadline r. subst r.
    by rewrite scheduleReminderEmail_spec.
Qed.

End SchedulerFacts.

(** ** The store *)

Section StoreFacts.
Import Store.

Lemma head_filter_None {A} (P : A -> Prop) `{!forall x, Decision (P x)} (l : list A) :
  (forall x, x ∈ l -> ~ P x) -> head (filter P l) = None.
Proof.
  intros Hall. apply head_None.
  destruct (filter P l) as [|x l'] eqn:E; [done|].
  assert (Hx : x ∈ filter P l) by (rewrite E; left).
  apply list_elem_of_filter in Hx as [HP Hin]. by destruct (Hall x Hin).
Qed.

Lemma head_filter_is_Some {A} (P : A -> Prop) `{!forall x, Decision (P x)}
    (l : list A) (x : A) :
  x ∈ l -> P x -> is_Some (head (filter P l)).
Proof.
  intros Hin HP. apply head_is_Some. intros E.
  by apply (filter_nil_not_elem_of P l x).
Qed.

(** What [findOne] by email finds is a stored user with that email. *)
Lemma findOne_Some (m : gmap string UserData) (email : string) (u : User) :
  head (filter (fun u => user_email u = email) (documents m)) = Some u ->
  m !! user_id u = Some u.2 /\ user_email u = email.
Proof.
  intros H. apply head_Some_elem_of, list_elem_of_filter in H as [He Hin].
  split; [|done]. destruct u as [id d]. by apply elem_of_map_to_list in Hin.
Qed.

Lemma findOne_unknown (m : gmap string UserData) (email : string) :
  (forall id d, m !! id = Some d -> ud_email d <> email) ->
  head (filter (fun u => user_email u = email) (documents m)) = None.
Proof.
  intros H. apply head_filter_None. intros [id d] Hin.
  apply elem_of_map_to_list in Hin. by apply (H id d).
Qed.

Lemma findOne_known (m : gmap string UserData) (email id : string) (d : UserData) :
  m !! id = Some d -> ud_email d = email ->
  is_Some (head (filter (fun u => user_email u = email) (documents m))).
Proof.
  intros Hm He. apply (head_filter_is_Some _ _ (id, d)); [|done].
  by apply elem_of_map_to_list.
Qed.

End StoreFacts.

(** ** Login and signup *)

Section AccountFacts.
Context {rt : Runtime}.
Import Store App.

Lemma User_create_fresh (email password : string) (s : State) :
  (forall id d, users s !! id = Some d -> ud_email d <> email) ->
  let id := fresh (dom (users s)) in
  let d := mkUserData email (bcrypt_hash password) in
  User_create email password s = (Normal (id, d), set_users (insert id d) s).
Proof.
  intros H id d. unfold User_create, bind, get. cbv beta iota.
  by rewrite (findOne_unknown _ _ H).
Qed.

Lemma User_create_duplicate (email password id : string) (d : UserData) (s : State) :
  users s !! id = Some d -> ud_email d = email ->
  User_create email password s = (Throw DuplicateEmail, s).
Proof.
  intros Hm He. destruct (findOne_known (users s) email id d Hm He) as [u Hu].
  unfold User_create, bind, get. cbv beta iota. by rewrite Hu.
Qed.


(** C7.  When a stored user already has the request's email, [User.create]
    throws [DuplicateEmail]; both signup handlers pass it to the error
    middleware, and the user collection, the session and the cookies are
    as before. *)
Theorem signup_duplicate_email (body : Credentials) (s : State) (id : string) (d : UserData) :
  users s !! id = Some d -> ud_email d = cred_email body ->
  User_create (cred_email body) (cred_password body) s = (Throw DuplicateEmail, s) /\
  let r := App.post_signup body s in
  let r' := UserRouter.post_signup body s in
  r = handleValidationError DuplicateEmail s /\
  r' = handleValidationError DuplicateEmail s /\
  r.1 = Normal (render 500 (view_error (err_message DuplicateEmail))) /\
  users r.2 = users s /\ session r.2 = session s /\ cookies r.2 = cookies s /\
  users r'.2 = users s /\ session r'.2 = session s /\ cookies r'.2 = cookies s.
Proof.
  intros Hm He.
  pose proof (User_create_duplicate _ (cred_password body) _ _ _ Hm He) as Hc.
  split; [done|]. intros r r'. subst r r'.
  unfold App.post_signup, UserRouter.post_signup, wrapAsync, try_catch, bind.
  rewrite Hc. done.
Qed.

(** C8, as the code has it.  A successful signup of [index.js] creates the
    user, sets the jwt cookie and redirects to [/tasks], and leaves
    [req.session] as it was: the new user's identifier is not recorded in
    the session. *)
Theorem signup_leaves_session (body : Credentials) (s : State) :
  (forall id d, users s !! id = Some d -> ud_email d <> cred_email body) ->
  let r := App.post_signup body s in
  let id := fresh (dom (users s)) in
  r.1 = Normal (redirect "/tasks") /\
  users r.2 = <[id := mkUserData (cred_email body) (bcrypt_hash (cred_password body))]> (users s) /\
  users s !! id = None /\
  cookies r.2 = cookies s ++ [("jwt", jwt_sign id)] /\
  session r.2 = session s.
Proof.
  intros H r id. subst r id.
  unfold App.post_signup, wrapAsync, try_catch, bind.
  rewrite (User_create_fresh _ _ _ H). simpl.
  repeat split. apply not_elem_of_dom, is_fresh.
Qed.

(** A successful login, for comparison: the session does record the
    user. *)
Lemma login_records_session (body : Credentials) (s : State) (u : User) :
  head (filter (fun u => user_email u = cred_email body) (documents (users s))) = Some u ->
  comparePassword u (cred_password body) = true ->
  let r := App.post_login body s in
  r.1 = Normal (redirect "/tasks") /\
  session r.2 = mkSession (Some (user_id u)) /\
  cookies r.2 = cookies s ++ [("jwt", jwt_sign (user_id u))].
Proof.
  intros Hu Hp r. subst r.
  unfold App.post_login, wrapAsync, try_catch, bind, User_findOne, get, ret.
  simpl. rewrite Hu. rewrite Hp. simpl. done.
Qed.

End AccountFacts.

(** ** Reading the task list *)

Section ListFacts.
Context {rt : Runtime}.
Import Store App Trace.

Lemma protect_authenticated (handler : M Response) (s : State) :
  truthy (sess_userId (session s)) = true -> protect handler s = handler s.
Proof. intros H. unfold protect, bind, get. cbv beta iota. by rewrite H. Qed.

Lemma protect_anonymous (handler : M Response) (s : State) :
  truthy (sess_userId (session s)) = false ->
  protect handler s = (Normal (redirect "/login"), s).
Proof. intros H. unfold protect, bind, get. cbv beta iota. by rewrite H. Qed.

Lemma for_of_sweep (l : list Task) (s : State) :
  for_of l (fun task =>
      Task_findByIdAndDelete (task_id task) ;;;
      log ("Deleted task with crossed deadline: " ++ task_title task)) s
  = (Normal tt, swept l s).
Proof.
  revert s. induction l as [|t l IH]; intros s.
  - simpl. unfold ret, swept. simpl. rewrite app_nil_r. by destruct s.
  - cbn [for_of]. unfold bind at 1. unfold bind at 1.
    unfold Task_findByIdAndDelete, log, modify. rewrite IH.
    unfold swept. simpl. by rewrite <- app_assoc.
Qed.

Lemma lookup_sweep_None (l : list Task) (m : gmap string TaskData) (id : string) :
  m !! id = None \/ id ∈ l.*1 ->
  foldl (fun m t => delete (task_id t) m) m l !! id = None.
Proof.
  revert m. induction l as [|t l IH]; intros m H; simpl.
  - destruct H as [H|H]; [done|]. by apply elem_of_nil in H.
  - apply IH. destruct H as [H|H].
    + left. rewrite lookup_delete. case_decide; done.
    + simpl in H. apply elem_of_cons in H as [->|H]; [|by right].
      left. apply lookup_delete_eq.
Qed.

Lemma lookup_sweep_Some (l : list Task) (m : gmap string TaskData) (id : string) (d : TaskData) :
  foldl (fun m t => delete (task_id t) m) m l !! id = Some d ->
  m !! id = Some d /\ id ∉ l.*1.
Proof.
  revert m. induction l as [|t l IH]; intros m H; simpl in *.
  - split; [done|]. apply not_elem_of_nil.
  - apply IH in H as [H Hnot].
    rewrite lookup_delete in H. case_decide; [done|].
    split; [done|]. apply not_elem_of_cons. done.
Qed.

Lemma lookup_sweep_keep (l : list Task) (m : gmap string TaskData) (id : string) :
  id ∉ l.*1 -> foldl (fun m t => delete (task_id t) m) m l !! id = m !! id.
Proof.
  revert m. induction l as [|t l IH]; intros m H; simpl in *; [done|].
  apply not_elem_of_cons in H as [Hne H]. rewrite IH by done.
  by apply lookup_delete_ne.
Qed.

(** A task that every clock reading finds past its deadline is among the
    crossed ones. *)
Lemma crossed_complete (clock : nat -> Z) (l : list Task) (i : nat) (t : Task) :
  t ∈ l -> (forall n, task_deadline t < clock n) -> t ∈ crossed clock i l.
Proof.
  revert i. induction l as [|x l IH]; intros i Hin Hall; simpl.
  - by apply elem_of_nil in Hin.
  - apply elem_of_cons in Hin as [<-|Hin].
    + pose proof (Hall i) as Hi. apply Z.ltb_lt in Hi. rewrite Hi. left.
    + destruct (task_deadline x <? clock i); [right|]; by apply IH.
Qed.

(** A task that is visited and not crossed was not past its deadline at
    some clock reading. *)
Lemma crossed_sound (clock : nat -> Z) (l : list Task) (i : nat) (t : Task) :
  t ∈ l -> t ∉ crossed clock i l -> exists n, clock n <= task_deadline t.
Proof.
  revert i. induction l as [|x l IH]; intros i Hin Hnot; simpl in *.
  - by apply elem_of_nil in Hin.
  - destruct (task_deadline x <? clock i) eqn:E.
    + apply not_elem_of_cons in Hnot as [Hne Hnot].
      apply elem_of_cons in Hin as [->|Hin]; [done|]. by apply (IH (S i)).
    + apply elem_of_cons in Hin as [->|Hin].
      * exists i. apply Z.ltb_ge in E. done.
      * by apply (IH (S i)).
Qed.

Lemma crossed_subset (clock : nat -> Z) (l : list Task) (i : nat) (t : Task) :
  t ∈ crossed clock i l -> t ∈ l.
Proof.
  revert i. induction l as [|x l IH]; intros i H; simpl in *; [done|].
  destruct (task_deadline x <? clock i).
  - apply elem_of_cons in H as [->|H]; [left|right; by apply (IH (S i))].
  - right. by apply (IH (S i)).
Qed.

Lemma get_tasks_spec (clock : nat -> Z) (s : State) :
  truthy (sess_userId (session s)) = true ->
  let userId := sess_userId (session s) in
  let allTasks := filter (fun t => Some (task_user t) = userId) (documents (tasks s)) in
  let s' := swept (crossed clock 0 allTasks) s in
  get_tasks clock s =
  (Normal (render 200 (view_home
     (filter (fun t => Some (task_user t) = userId) (documents (tasks s'))))), s').
Proof.
  intros Hauth userId allTasks s'. unfold get_tasks.
  rewrite protect_authenticated by done.
  unfold wrapAsync, try_catch, bind at 1, get at 1. cbv beta iota.
  unfold bind at 1, Task_find at 1, bind at 1, get at 1, ret at 1. cbv beta iota.
  unfold bind at 1. rewrite for_of_sweep.
  reflexivity.
Qed.

(** C4.  For an authenticated read of the task list that begins at time
    [t0], so that no reading of the clock during the request is before
    [t0]: the handler answers with the home page; every task on it has a
    deadline not before [t0]; every task of the session's user whose
    deadline is before [t0] is gone from the collection when the handler
    answers; and the page lists exactly the user's tasks that are in the
    collection then. *)
Theorem list_expires_elapsed (clock : nat -> Z) (t0 : Z) (s : State) :
  truthy (sess_userId (session s)) = true ->
  (forall n, t0 <= clock n) ->
  let r := get_tasks clock s in
  exists remaining,
    r.1 = Normal (render 200 (view_home remaining)) /\
    (forall t, t ∈ remaining -> t0 <= task_deadline t) /\
    (forall id d, tasks s !! id = Some d ->
       Some (td_user d) = sess_userId (session s) -> td_deadline d < t0 ->
       tasks r.2 !! id = None) /\
    (forall t, t ∈ remaining <->
       tasks r.2 !! task_id t = Some t.2 /\ Some (task_user t) = sess_userId (session s)).
Proof.
  intros Hauth Hclock r. subst r. rewrite get_tasks_spec by done.
  set (userId := sess_userId (session s)).
  set (allTasks := filter (fun t => Some (task_user t) = userId) (documents (tasks s))).
  eexists. split; [reflexivity|]. simpl.
  assert (Hmem : forall t, t ∈ filter (fun t => Some (task_user t) = userId)
                     (documents (foldl (fun m t => delete (task_id t) m) (tasks s)
                                       (crossed clock 0 allTasks)))
                 <-> foldl (fun m t => delete (task_id t) m) (tasks s)
                       (crossed clock 0 allTasks) !! task_id t = Some t.2
                     /\ Some (task_user t) = userId).
  { intros [id d]. rewrite list_elem_of_filter. unfold documents, task_id. simpl.
    split; intros [H1 H2]; split; try done; by apply elem_of_map_to_list. }
  split; [|split; [|exact Hmem]].
  - intros [id d] Hin. apply Hmem in Hin as [Hl Hu]. simpl in *.
    apply lookup_sweep_Some in Hl as [Hl Hnot].
    assert (Hall : (id, d) ∈ allTasks).
    { apply list_elem_of_filter. split; [done|]. by apply elem_of_map_to_list. }
    assert (Hnc : (id, d) ∉ crossed clock 0 allTasks).
    { intros Hc. apply Hnot. apply list_elem_of_fmap. by exists (id, d). }
    destruct (crossed_sound clock allTasks 0 (id, d) Hall Hnc) as [n Hn].
    unfold task_deadline in *. simpl in *. specialize (Hclock n). lia.
  - intros id d Hl Hu Hd. apply lookup_sweep_None. right.
    apply list_elem_of_fmap. exists (id, d). split; [done|].
    apply crossed_complete.
    + apply list_elem_of_filter. split; [done|]. by apply elem_of_map_to_list.
    + intros n. unfold task_deadline. simpl. specialize (Hclock n). lia.
Qed.

End ListFacts.

(** ** Creating a task *)

Section CreateFacts.
Context {rt : Runtime}.
Import Clock Store Scheduler App Trace.

Lemma truthy_js_str (o : option string) :
  truthy o = true -> String.eqb (js_str o) EmptyString = false.
Proof. destruct o as [x|]; simpl; [|done]. by destruct (String.eqb x EmptyString). Qed.

Lemma truthy_Some (o : option string) :
  truthy o = true -> o = Some (js_str o).
Proof. by destruct o. Qed.

Ltac run_handler :=
  unfold tasks_new_handler, try_catch;
  unfold User_findById, castObjectId, Task_save, Task_validate,
    scheduleReminderEmail, cron_schedule, next_err, handleValidationError,
    log_error, document;
  unfold bind, get, modify, ret, throw; cbv beta iota zeta.

Ltac step := cbv beta iota delta [negb].

Lemma handler_missing (now : Z) (body : NewTask) (s : State) :
  present body = false ->
  tasks_new_handler now body s =
  (Normal (render 400 (view_error "Title, deadline, and user information are required fields")),
   failed (AppError "Title, deadline, and user information are required fields" 400) s).
Proof.
  unfold present. intros H. run_handler.
  rewrite <- !negb_andb, H. reflexivity.
Qed.

Lemma handler_unparsable (now : Z) (body : NewTask) (s : State) :
  present body = true ->
  Date_parse (js_str (nt_deadline body)) = None ->
  tasks_new_handler now body s =
  (Normal (render 400 (view_error "Invalid deadline date")),
   failed (AppError "Invalid deadline date" 400) s).
Proof.
  unfold present. intros H Hp. run_handler.
  rewrite <- !negb_andb, H, Hp. reflexivity.
Qed.

Lemma handler_past (now : Z) (body : NewTask) (s : State) (d : Z) :
  present body = true ->
  Date_parse (js_str (nt_deadline body)) = Some d ->
  d <= now ->
  tasks_new_handler now body s =
  (Normal (render 400 (view_error "Deadline cannot be in the past")),
   failed (AppError "Deadline cannot be in the past" 400) s).
Proof.
  unfold present. intros H Hp Hd. apply Z.leb_le in Hd. run_handler.
  rewrite <- !negb_andb, H, Hp. step. rewrite Hd. reflexivity.
Qed.

Lemma handler_too_soon (now : Z) (body : NewTask) (s : State) (d : Z) :
  present body = true ->
  Date_parse (js_str (nt_deadline body)) = Some d ->
  now < d <= now + HOUR ->
  tasks_new_handler now body s =
  (Normal (render 400 (view_error "Deadline must be at least one hour ahead")),
   failed (AppError "Deadline must be at least one hour ahead" 400) s).
Proof.
  unfold present. intros H Hp [Hd1 Hd2].
  apply Z.leb_gt in Hd1. apply Z.leb_le in Hd2. run_handler.
  rewrite <- !negb_andb, H, Hp. step. rewrite Hd1. step.
  fold HOUR. rewrite Hd2. reflexivity.
Qed.

Lemma handler_unknown_user (now : Z) (body : NewTask) (s : State) (d : Z) :
  present body = true ->
  Date_parse (js_str (nt_deadline body)) = Some d ->
  now + HOUR < d ->
  users s !! js_str (nt_userId body) = None ->
  isObjectId (js_str (nt_userId body)) = true ->
  tasks_new_handler now body s =
  (Normal (render 404 (view_error "User not found")),
   failed (AppError "User not found" 404) s).
Proof.
  unfold present. intros H Hp Hd Hu Hid.
  assert (Hd1 : (d <=? now) = false) by (apply Z.leb_gt; rewrite HOUR_eq in Hd; lia).
  apply Z.leb_gt in Hd. run_handler.
  rewrite <- !negb_andb, H, Hp. step. rewrite Hd1. step.
  fold HOUR. rewrite Hd. step. rewrite Hu, Hid. step. rewrite Hu. reflexivity.
Qed.

Lemma handler_malformed_user (now : Z) (body : NewTask) (s : State) (d : Z) :
  present body = true ->
  Date_parse (js_str (nt_deadline body)) = Some d ->
  now + HOUR < d ->
  users s !! js_str (nt_userId body) = None ->
  isObjectId (js_str (nt_userId body)) = false ->
  tasks_new_handler now body s =
  (Normal (render 500 (view_error
     (shown (CastError (castMessage "_id" (js_str (nt_userId body))))))),
   failed (CastError (castMessage "_id" (js_str (nt_userId body)))) s).
Proof.
  unfold present. intros H Hp Hd Hu Hid.
  assert (Hd1 : (d <=? now) = false) by (apply Z.leb_gt; rewrite HOUR_eq in Hd; lia).
  apply Z.leb_gt in Hd. run_handler.
  rewrite <- !negb_andb, H, Hp. step. rewrite Hd1. step.
  fold HOUR. rewrite Hd. step. rewrite Hu, Hid. reflexivity.
Qed.

Lemma handler_created (now : Z) (body : NewTask) (s : State) (d : Z) (u : UserData) :
  present body = true ->
  Date_parse (js_str (nt_deadline body)) = Some d ->
  now + HOUR < d ->
  users s !! js_str (nt_userId body) = Some u ->
  let data := mkTaskData (js_str (nt_title body)) (nt_description body) d
                (js_str (nt_userId body)) (ud_email u) in
  tasks_new_handler now body s =
  (Normal (redirect "/tasks"),
   mkState (users s)
     (<[fresh (dom (tasks s)) := data]> (tasks s))
     (cronJobs s ++ [reminderJob (ud_email u) (js_str (nt_title body))
                       (nt_description body) d])
     (console s) (mailCalls s) (session s) (cookies s)).
Proof.
  intros H Hp Hd Hu data. unfold present in H. subst data.
  assert (Hd1 : (d <=? now) = false) by (apply Z.leb_gt; rewrite HOUR_eq in Hd; lia).
  apply Z.leb_gt in Hd.
  assert (Ht : String.eqb (js_str (nt_title body)) EmptyString = false).
  { apply truthy_js_str. by destruct (truthy (nt_title body)). }
  run_handler.
  rewrite <- !negb_andb, H, Hp. step. rewrite Hd1. step.
  fold HOUR. rewrite Hd. step. rewrite Hu. step. rewrite ?Hu. step.
  simpl. rewrite Ht. reflexivity.
Qed.

End CreateFacts.

(** ** Creation, the session and ownership *)

Section OwnershipFacts.
Context {rt : Runtime}.
Import Clock Store Scheduler App Trace.

(** C3, amended.  The creation handler answers 400 and creates nothing
    when the title, the deadline or the user id is missing or empty, when
    the deadline is no date, and when it is not more than one hour after
    the handler's clock reading (which includes every deadline in the
    past).  Otherwise it answers 404 and creates nothing when the user id
    is a well-formed identifier that does not resolve, and when the user
    id resolves it stores the task under a new identifier, registers the
    reminder job and redirects to [/tasks]. *)
Theorem create_task_outcomes (now : Z) (body : NewTask) (s : State) :
  let r := tasks_new_handler now body s in
  let deadline := Date_parse (js_str (nt_deadline body)) in
  let rejected (status : Z) :=
    (exists msg, r.1 = Normal (render status (view_error msg))) /\
    users r.2 = users s /\ tasks r.2 = tasks s /\ cronJobs r.2 = cronJobs s in
  (present body = false -> rejected 400) /\
  (deadline = None -> rejected 400) /\
  (forall d, deadline = Some d -> d <= now + HOUR -> rejected 400) /\
  (forall d, present body = true -> deadline = Some d -> now + HOUR < d ->
     users s !! js_str (nt_userId body) = None ->
     isObjectId (js_str (nt_userId body)) = true -> rejected 404) /\
  (forall d u, present body = true -> deadline = Some d -> now + HOUR < d ->
     users s !! js_str (nt_userId body) = Some u ->
     r.1 = Normal (redirect "/tasks") /\
     tasks s !! fresh (dom (tasks s)) = None /\
     tasks r.2 = <[fresh (dom (tasks s)) :=
                    mkTaskData (js_str (nt_title body)) (nt_description body) d
                      (js_str (nt_userId body)) (ud_email u)]> (tasks s) /\
     cronJobs r.2 = cronJobs s ++
       [reminderJob (ud_email u) (js_str (nt_title body)) (nt_description body) d]).
Proof.
  intros r deadline rejected. subst r deadline rejected. cbv beta.
  assert (Hmiss : present body = false ->
    (exists msg, (tasks_new_handler now body s).1 = Normal (render 400 (view_error msg))) /\
    users (tasks_new_handler now body s).2 = users s /\
    tasks (tasks_new_handler now body s).2 = tasks s /\
    cronJobs (tasks_new_handler now body s).2 = cronJobs s).
  { intros H. rewrite handler_missing by done. simpl. eauto. }
  split; [exact Hmiss|]. split; [|split; [|split]].
  - intros Hp. destruct (present body) eqn:H; [|by apply Hmiss].
    rewrite handler_unparsable by done. simpl. eauto.
  - intros d Hp Hd. destruct (present body) eqn:H; [|by apply Hmiss].
    destruct (Z_le_gt_dec d now).
    + rewrite (handler_past now body s d) by done. simpl. eauto.
    + rewrite (handler_too_soon now body s d) by (done || lia). simpl. eauto.
  - intros d H Hp Hd Hu Hid.
    rewrite (handler_unknown_user now body s d) by done. simpl. eauto.
  - intros d u H Hp Hd Hu.
    rewrite (handler_created now body s d u) by done. simpl.
    split; [done|]. split; [|done]. apply not_elem_of_dom, is_fresh.
Qed.

(** The creation handler neither reads nor writes the session. *)
Lemma tasks_new_handler_session (now : Z) (body : NewTask) (s : State) (sess : Session) :
  tasks_new_handler now body (set_session (fun _ => sess) s) =
  ((tasks_new_handler now body s).1,
   set_session (fun _ => sess) (tasks_new_handler now body s).2).
Proof.
  destruct (present body) eqn:H.
  - destruct (Date_parse (js_str (nt_deadline body))) as [d|] eqn:Hp.
    + destruct (Z_le_gt_dec d now).
      { by rewrite !(handler_past now body _ d). }
      destruct (Z_le_gt_dec d (now + HOUR)).
      { by rewrite !(handler_too_soon now body _ d) by (done || lia). }
      destruct (users s !! js_str (nt_userId body)) as [u|] eqn:Hu.
      * by rewrite !(handler_created now body _ d u) by (done || lia).
      * destruct (isObjectId (js_str (nt_userId body))) eqn:Hid.
        { by rewrite !(handler_unknown_user now body _ d) by (done || lia). }
        by rewrite !(handler_malformed_user now body _ d) by (done || lia).
    + by rewrite !handler_unparsable.
  - by rewrite !handler_missing.
Qed.

(** When the creation handler redirects, it has created the task. *)
Lemma handler_redirect_inv (now : Z) (body : NewTask) (s : State) :
  (tasks_new_handler now body s).1 = Normal (redirect "/tasks") ->
  exists uid u d,
    nt_userId body = Some uid /\ users s !! uid = Some u /\
    Date_parse (js_str (nt_deadline body)) = Some d /\
    (tasks_new_handler now body s).2 =
      mkState (users s)
        (<[fresh (dom (tasks s)) :=
             mkTaskData (js_str (nt_title body)) (nt_description body) d uid (ud_email u)]>
           (tasks s))
        (cronJobs s ++
           [reminderJob (ud_email u) (js_str (nt_title body)) (nt_description body) d])
        (console s) (mailCalls s) (session s) (cookies s).
Proof.
  destruct (present body) eqn:H.
  - destruct (Date_parse (js_str (nt_deadline body))) as [d|] eqn:Hp.
    + destruct (Z_le_gt_dec d now).
      { by rewrite (handler_past now body _ d). }
      destruct (Z_le_gt_dec d (now + HOUR)).
      { by rewrite (handler_too_soon now body _ d) by (done || lia). }
      destruct (users s !! js_str (nt_userId body)) as [u|] eqn:Hu.
      * rewrite (handler_created now body _ d u) by (done || lia). intros _.
        exists (js_str (nt_userId body)), u, d.
        split; [|done]. apply truthy_Some.
        unfold present in H. by destruct (truthy (nt_userId body)), (truthy (nt_title body)),
          (truthy (nt_deadline body)).
      * destruct (isObjectId (js_str (nt_userId body))) eqn:Hid.
        { by rewrite (handler_unknown_user now body _ d) by (done || lia). }
        by rewrite (handler_malformed_user now body _ d) by (done || lia).
    + by rewrite handler_unparsable.
  - by rewrite handler_missing.
Qed.

(** C9.  Two creation requests with the same body, at the same time and
    on the same collections, made under two authenticated sessions, get
    the same response and leave the same users, tasks and reminder jobs.
    When the task is created, its owner is the body's [userId], and its
    owner email and the reminder's recipient are the email of the user
    with that identifier. *)
Theorem creation_ignores_session_user (now : Z) (body : NewTask) (s : State)
    (sessA sessB : Session) :
  truthy (sess_userId sessA) = true ->
  truthy (sess_userId sessB) = true ->
  let rA := post_tasks_new now body (set_session (fun _ => sessA) s) in
  let rB := post_tasks_new now body (set_session (fun _ => sessB) s) in
  rA.1 = rB.1 /\
  users rA.2 = users rB.2 /\ tasks rA.2 = tasks rB.2 /\ cronJobs rA.2 = cronJobs rB.2 /\
  (rA.1 = Normal (redirect "/tasks") ->
   exists uid u d,
     nt_userId body = Some uid /\ users s !! uid = Some u /\
     tasks rA.2 =
       <[fresh (dom (tasks s)) :=
           mkTaskData (js_str (nt_title body)) (nt_description body) d uid (ud_email u)]>
         (tasks s) /\
     cronJobs rA.2 = cronJobs s ++
       [reminderJob (ud_email u) (js_str (nt_title body)) (nt_description body) d]).
Proof.
  intros HA HB rA rB. subst rA rB. unfold post_tasks_new.
  rewrite !protect_authenticated by done.
  rewrite !tasks_new_handler_session. simpl.
  repeat (split; [done|]).
  intros Hr. apply handler_redirect_inv in Hr as (uid & u & d & Hid & Hu & _ & ->).
  exists uid, u, d. done.
Qed.

Lemma castObjectId_ok {A} (m : gmap string A) (id : string) (s : State) :
  is_Some (m !! id) \/ isObjectId id = true ->
  castObjectId m id s = (Normal id, s).
Proof.
  unfold castObjectId. intros [[x Hx]|Hid].
  - by rewrite Hx.
  - rewrite Hid. by destruct (m !! id).
Qed.

Lemma castObjectId_malformed {A} (m : gmap string A) (id : string) (s : State) :
  m !! id = None -> isObjectId id = false ->
  castObjectId m id s = (Throw (CastError (castMessage "_id" id)), s).
Proof. unfold castObjectId. intros Hm Hid. by rewrite Hm, Hid. Qed.

Lemma Task_findByIdAndUpdate_valid (id : string) (body : TaskUpdate)
    (deadline : option Z) (s : State) :
  is_Some (tasks s !! id) \/ isObjectId id = true ->
  update_deadline body = Some deadline ->
  upd_title body <> Some EmptyString ->
  Task_findByIdAndUpdate id body s =
  (Normal tt, set_tasks (alter (apply_update body deadline) id) s).
Proof.
  intros Hid Hd Ht. unfold Task_findByIdAndUpdate, cast_deadline. rewrite Hd.
  unfold bind at 1, get at 1. cbv beta iota.
  unfold bind at 1. rewrite castObjectId_ok by done.
  unfold bind at 1, ret at 1. unfold bind at 1.
  destruct (upd_title body) as [title|]; [|reflexivity].
  unfold Task_validate. destruct (String.eqb_spec title EmptyString); [|reflexivity].
  by subst.
Qed.

(** C10.  Under any authenticated session and for any stored task,
    whoever owns it: showing the task renders it, deleting it removes it
    from the collection, and an edit whose fields pass the validators
    replaces the task's fields.  No handler compares the task's owner with
    the session's user. *)
Theorem no_ownership_check (id : string) (d : TaskData) (s : State) :
  truthy (sess_userId (session s)) = true ->
  tasks s !! id = Some d ->
  get_task id s = (Normal (render 200 (view_show (id, d))), s) /\
  delete_task id s = (Normal (redirect "/tasks"), set_tasks (delete id) s) /\
  (forall body deadline,
     update_deadline body = Some deadline ->
     upd_title body <> Some EmptyString ->
     let r := put_task_edit id body s in
     r.1 = Normal (redirect ("/tasks/" ++ id)) /\
     tasks r.2 = <[id := apply_update body deadline d]> (tasks s)).
Proof.
  intros Hauth Hd. split; [|split].
  - unfold get_task. rewrite protect_authenticated by done.
    unfold wrapAsync, try_catch, Task_findById, document.
    unfold bind at 1. unfold bind at 1, get at 1. cbv beta iota.
    unfold bind at 1. rewrite castObjectId_ok by eauto.
    unfold ret. by rewrite Hd.
  - unfold delete_task. rewrite protect_authenticated by done.
    unfold bind at 1, get at 1. cbv beta iota.
    unfold bind at 1. by rewrite castObjectId_ok by eauto.
  - intros body deadline Hdl Ht r. subst r. unfold put_task_edit.
    rewrite protect_authenticated by done.
    unfold wrapAsync, try_catch, bind.
    rewrite (Task_findByIdAndUpdate_valid id body deadline) by eauto. simpl.
    split; [done|]. apply map_eq. intros i.
    rewrite lookup_alter, lookup_insert.
    case_decide; [subst; by rewrite Hd|done].
Qed.

End OwnershipFacts.

(** ** The model at concrete inputs *)

Section Concrete.
Import Clock Cron Store Scheduler App Trace Demo.

(** A reminder scheduled for a deadline of 2030-01-01T01:00:00Z is mailed
    at midnight and again at midnight of the next day, and its job is
    still registered afterwards. *)
Example reminder_sent_on_two_days :
  let s1 := (scheduleReminderEmail (rt:=rt_ok) "alice@example.com" "Pay rent" None
               (t2030 + HOUR) s_empty).2 in
  let s2 := (cron_run (rt:=rt_ok) [t2030; t2030 + DAY] s1).2 in
  length (mailCalls s2) = 2%nat /\
  mailCalls s2 = [reminderMail (rt:=rt_ok)
                    (reminderJob (rt:=rt_ok) "alice@example.com" "Pay rent" None (t2030 + HOUR));
                  reminderMail (rt:=rt_ok)
                    (reminderJob (rt:=rt_ok) "alice@example.com" "Pay rent" None (t2030 + HOUR))] /\
  cronJobs s2 = cronJobs s1 /\ length (cronJobs s2) = 1%nat.
Proof. vm_compute. done. Qed.

(** A task created at 00:00:30 with a deadline of 01:00:45 passes the
    creation guard; its reminder time, 00:00:45, lies ahead, but the tick
    of that minute is over, and no tick before the deadline matches the
    job's pattern. *)
Example reminder_missed_before_deadline :
  let now := t2030 + 30000 in
  let deadline := t2030 + HOUR + 45000 in
  now + HOUR < deadline /\
  forallb (fun t => negb (matches (rt:=rt_ok)
                            (job_pattern (reminderJob (rt:=rt_ok) "a" "b" None deadline)) t))
          (map (fun k => now + Z.of_nat k * SECOND) (seq 0 3616)) = true.
Proof. vm_compute. done. Qed.

Lemma past_reminder_waits_a_day_witness :
  let deadline := t2030 + 30 * MINUTE in
  let now := t2030 in
  let t := t2030 + HOUR in
  let j := reminderJob (rt:=rt_ok) "alice@example.com" "Pay rent" None deadline in
  let s1 := (scheduleReminderEmail (rt:=rt_ok) "alice@example.com" "Pay rent" None
               deadline s_empty).2 in
  cronJobs s1 = [j] /\
  mailCalls (cron_tick (rt:=rt_ok) t s1).2 = mailCalls s_empty /\
  mailCalls (cron_tick (rt:=rt_ok) (minuteStart (rt:=rt_ok) (deadline - HOUR) + DAY) s1).2
    = mailCalls s_empty ++ [reminderMail (rt:=rt_ok) j].
Proof.
  apply (past_reminder_waits_a_day (rt:=rt_ok) "alice@example.com" "Pay rent" None
           (t2030 + 30 * MINUTE) s_empty t2030 (t2030 + HOUR)).
  - reflexivity.
  - vm_compute. discriminate.
  - vm_compute. split; [discriminate | reflexivity].
Defined.

Lemma notifier_failure_absorbed_witness :
  let j := reminderJob (rt:=rt_down) "alice@example.com" "Pay rent" None (t2030 + HOUR) in
  let s := set_cronJobs (fun _ => [j]) s_empty in
  reminderCallback (rt:=rt_down) j s =
    (Normal tt,
     mkState (users s) (tasks s) (cronJobs s)
       (console s ++ [console_error "Error sending reminder email:" ECONNREFUSED])
       (mailCalls s ++ [reminderMail (rt:=rt_down) j])
       (session s) (cookies s)) /\
  (forall t, (cron_tick (rt:=rt_down) t s).1 = Normal tt /\
             cronJobs (cron_tick (rt:=rt_down) t s).2 = cronJobs s) /\
  (forall userEmail taskTitle taskDescription taskDeadline,
     let r := scheduleReminderEmail (rt:=rt_down) userEmail taskTitle taskDescription
                taskDeadline s in
     r.1 = Normal tt /\ mailCalls r.2 = mailCalls s).
Proof.
  apply (notifier_failure_absorbed (rt:=rt_down)). reflexivity.
Defined.

(** The tick of the reminder's minute with a transport that is down: one
    call of the transport, one error line, a normal completion. *)
Example tick_with_transport_down :
  let j := reminderJob (rt:=rt_down) "alice@example.com" "Pay rent" None (t2030 + HOUR) in
  let r := cron_tick (rt:=rt_down) t2030 (set_cronJobs (fun _ => [j]) s_empty) in
  r.1 = Normal tt /\
  mailCalls r.2 = [reminderMail (rt:=rt_down) j] /\
  console r.2 = [console_error "Error sending reminder email:" ECONNREFUSED] /\
  cronJobs r.2 = [j].
Proof. vm_compute. done. Qed.

Lemma list_expires_elapsed_witness :
  let s := s_two (Some "u1") in
  let r := get_tasks (fun n => t2030 - 5 + Z.of_nat n) s in
  exists remaining,
    r.1 = Normal (render 200 (view_home remaining)) /\
    (forall t, t ∈ remaining -> t2030 - 5 <= task_deadline t) /\
    (forall id d, tasks s !! id = Some d ->
       Some (td_user d) = sess_userId (session s) -> td_deadline d < t2030 - 5 ->
       tasks r.2 !! id = None) /\
    (forall t, t ∈ remaining <->
       tasks r.2 !! task_id t = Some t.2 /\ Some (task_user t) = sess_userId (session s)).
Proof.
  apply (list_expires_elapsed (fun n => t2030 - 5 + Z.of_nat n) (t2030 - 5)
           (s_two (Some "u1"))).
  - reflexivity.
  - intros n. lia.
Defined.

(** The same read, evaluated: the task ten days past its deadline is
    deleted, the other one is listed. *)
Example list_sweeps_old_task :
  let r := get_tasks (fun n => t2030 - 5 + Z.of_nat n) (s_two (Some "u1")) in
  r.1 = Normal (render 200 (view_home [("t1", rent)])) /\
  tasks r.2 = <["t1" := rent]> ∅.
Proof. vm_compute. done. Qed.

Lemma s_two_users (who : option string) (id : string) (d : UserData) :
  users (s_two who) !! id = Some d ->
  (id = "u1" /\ d = alice) \/ (id = "u2" /\ d = bob).
Proof.
  simpl. rewrite !lookup_insert_Some, lookup_empty.
  intros [[<- <-]|[_ [[<- <-]|[_ ?]]]]; [by left|by right|done].
Qed.


(** The login of [routes/user.js] with the right password of a stored
    user: 500, no cookie, no session. *)
Example router_login_right_password :
  let r := UserRouter.post_login (rt:=rt_ok)
             (mkCredentials "alice@example.com" "wonderland") (s_two None) in
  r.1 = Normal (render 500 (view_error "data and hash arguments required")) /\
  cookies r.2 = [] /\ sess_userId (session r.2) = None.
Proof. vm_compute. done. Qed.

Lemma signup_duplicate_email_witness :
  let body := mkCredentials "alice@example.com" "again" in
  let s := s_two None in
  User_create (rt:=rt_ok) (cred_email body) (cred_password body) s = (Throw DuplicateEmail, s) /\
  let r := App.post_signup (rt:=rt_ok) body s in
  let r' := UserRouter.post_signup (rt:=rt_ok) body s in
  r = handleValidationError DuplicateEmail s /\
  r' = handleValidationError DuplicateEmail s /\
  r.1 = Normal (render 500 (view_error (err_message DuplicateEmail))) /\
  users r.2 = users s /\ session r.2 = session s /\ cookies r.2 = cookies s /\
  users r'.2 = users s /\ session r'.2 = session s /\ cookies r'.2 = cookies s.
Proof.
  apply (signup_duplicate_email (rt:=rt_ok) (mkCredentials "alice@example.com" "again")
           (s_two None) "u1" alice); reflexivity.
Defined.

Lemma signup_leaves_session_witness :
  let body := mkCredentials "carol@example.com" "secret" in
  let s := s_two None in
  let r := App.post_signup (rt:=rt_ok) body s in
  let id := fresh (dom (users s)) in
  r.1 = Normal (redirect "/tasks") /\
  users r.2 = <[id := mkUserData "carol@example.com" "$2b$secret"]> (users s) /\
  users s !! id = None /\
  cookies r.2 = cookies s ++ [("jwt", jwt_sign (Runtime := rt_ok) id)] /\
  session r.2 = session s.
Proof.
  apply (signup_leaves_session (rt:=rt_ok) (mkCredentials "carol@example.com" "secret")
           (s_two None)).
  intros id d Hm. apply s_two_users in Hm as [[-> ->]|[-> ->]]; discriminate.
Defined.

(** After a signup on a fresh session the session has no user, and the
    page the signup redirects to sends the new user on to the login
    page. *)
Example signup_then_tasks_asks_for_login :
  let r := App.post_signup (rt:=rt_ok) (mkCredentials "carol@example.com" "secret")
             (s_two None) in
  r.1 = Normal (redirect "/tasks") /\
  sess_userId (session r.2) = None /\
  (get_tasks (fun _ => t2030) r.2).1 = Normal (redirect "/login").
Proof. vm_compute. done. Qed.

(** The same credentials, once registered, logged in: the session records
    the user. *)
Example login_sets_session :
  let r := App.post_login (rt:=rt_ok) (mkCredentials "alice@example.com" "wonderland")
             (s_two None) in
  r.1 = Normal (redirect "/tasks") /\ sess_userId (session r.2) = Some "u1".
Proof. vm_compute. done. Qed.

(** A creation request with a deadline two hours ahead and the identifier
    of a stored user, but without a title: none of the deadline checks
    fails and the user resolves, yet the handler answers 400 and no task
    is created. *)
Lemma creation_without_title_rejected :
  let now := t2030 - 2 * HOUR in
  let body := mkNewTask None (Some "notes") (Some "2030-01-01T00:00:00Z") (Some "u1") in
  let s := s_two (Some "u1") in
  let r := tasks_new_handler (rt:=rt_ok) now body s in
  truthy (nt_deadline body) = true /\
  Date_parse (Runtime := rt_ok) (js_str (nt_deadline body)) = Some t2030 /\
  now + HOUR < t2030 /\
  users s !! js_str (nt_userId body) = Some alice /\
  r.1 = Normal (render 400
          (view_error "Title, deadline, and user information are required fields")) /\
  r.1 <> Normal (redirect "/tasks") /\
  tasks r.2 = tasks s.
Proof. vm_compute. repeat split; discriminate. Qed.

Lemma create_task_outcomes_witness :
  let now := t2030 - 2 * HOUR in
  let body := mkNewTask (Some "Pay rent") None (Some "2030-01-01T00:00:00Z") (Some "u2") in
  let s := s_two (Some "u1") in
  let r := tasks_new_handler (rt:=rt_ok) now body s in
  r.1 = Normal (redirect "/tasks") /\
  tasks s !! fresh (dom (tasks s)) = None /\
  tasks r.2 = <[fresh (dom (tasks s)) :=
                 mkTaskData "Pay rent" None t2030 "u2" "bob@example.com"]> (tasks s) /\
  cronJobs r.2 = cronJobs s ++
    [reminderJob (rt:=rt_ok) "bob@example.com" "Pay rent" None t2030].
Proof.
  destruct (create_task_outcomes (rt:=rt_ok) (t2030 - 2 * HOUR)
              (mkNewTask (Some "Pay rent") None (Some "2030-01-01T00:00:00Z") (Some "u2"))
              (s_two (Some "u1"))) as (_ & _ & _ & _ & H).
  apply (H t2030 bob); reflexivity.
Defined.

(** The same request with a title is accepted. *)
Example creation_accepted :
  let now := t2030 - 2 * HOUR in
  let body := mkNewTask (Some "Pay rent") None (Some "2030-01-01T00:00:00Z") (Some "u2") in
  let r := post_tasks_new (rt:=rt_ok) now body (s_two (Some "u1")) in
  r.1 = Normal (redirect "/tasks") /\
  tasks r.2 !! "0" = Some (mkTaskData "Pay rent" None t2030 "u2" "bob@example.com") /\
  map job_userEmail (cronJobs r.2) = ["bob@example.com"].
Proof. vm_compute. done. Qed.

Lemma creation_ignores_session_user_witness :
  let now := t2030 - 2 * HOUR in
  let body := mkNewTask (Some "Pay rent") None (Some "2030-01-01T00:00:00Z") (Some "u2") in
  let s := s_two None in
  let rA := post_tasks_new (rt:=rt_ok) now body (set_session (fun _ => mkSession (Some "u1")) s) in
  let rB := post_tasks_new (rt:=rt_ok) now body (set_session (fun _ => mkSession (Some "u2")) s) in
  rA.1 = rB.1 /\
  users rA.2 = users rB.2 /\ tasks rA.2 = tasks rB.2 /\ cronJobs rA.2 = cronJobs rB.2 /\
  (rA.1 = Normal (redirect "/tasks") ->
   exists uid u d,
     nt_userId body = Some uid /\ users s !! uid = Some u /\
     tasks rA.2 =
       <[fresh (dom (tasks s)) :=
           mkTaskData (js_str (nt_title body)) (nt_description body) d uid (ud_email u)]>
         (tasks s) /\
     cronJobs rA.2 = cronJobs s ++
       [reminderJob (rt:=rt_ok) (ud_email u) (js_str (nt_title body)) (nt_description body) d]).
Proof.
  apply (creation_ignores_session_user (rt:=rt_ok) (t2030 - 2 * HOUR)
           (mkNewTask (Some "Pay rent") None (Some "2030-01-01T00:00:00Z") (Some "u2"))
           (s_two None) (mkSession (Some "u1")) (mkSession (Some "u2")));
    reflexivity.
Defined.

(** The session is the one of user [u2]; the task belongs to [u1]. *)
Lemma no_ownership_check_witness :
  let s := s_two (Some "u2") in
  td_user rent <> "u2" /\
  get_task (rt:=rt_ok) "t1" s = (Normal (render 200 (view_show ("t1", rent))), s) /\
  delete_task (rt:=rt_ok) "t1" s = (Normal (redirect "/tasks"), set_tasks (delete "t1") s) /\
  (forall body deadline,
     update_deadline (rt:=rt_ok) body = Some deadline ->
     upd_title body <> Some EmptyString ->
     let r := put_task_edit (rt:=rt_ok) "t1" body s in
     r.1 = Normal (redirect ("/tasks/" ++ "t1")) /\
     tasks r.2 = <["t1" := apply_update body deadline rent]> (tasks s)).
Proof.
  split; [discriminate|].
  apply (no_ownership_check (rt:=rt_ok) "t1" rent (s_two (Some "u2"))); reflexivity.
Defined.

(** An edit of [u1]'s task under the session of [u2], evaluated. *)
Example edit_other_users_task :
  let r := put_task_edit (rt:=rt_ok) "t1"
             (mkTaskUpdate (Some "Taken over") None (Some "2030-01-01T00:00:30Z"))
             (s_two (Some "u2")) in
  r.1 = Normal (redirect "/tasks/t1") /\
  tasks r.2 !! "t1" =
    Some (mkTaskData "Taken over" (Some "before noon") (t2030 + 30000) "u1" "alice@example.com").
Proof. vm_compute. done. Qed.

End Concrete.

(** * Further properties of [index.js] *)

(** ** Logging in *)

Section LoginFacts.
Context {rt : Runtime}.
Import Store App.

(** A user found by email, when only one stored user has that email. *)
Lemma findOne_unique (m : gmap string UserData) (email id : string) (d : UserData) :
  m !! id = Some d -> ud_email d = email ->
  (forall id' d', m !! id' = Some d' -> ud_email d' = email -> id' = id) ->
  head (filter (fun u => user_email u = email) (documents m)) = Some (id, d).
Proof.
  intros Hm He Huniq.
  destruct (findOne_known m email id d Hm He) as [[id' d'] Hu].
  rewrite Hu. pose proof (findOne_Some _ _ _ Hu) as [Hm' He']. simpl in *.
  pose proof (Huniq id' d' Hm' He'). subst id'. congruence.
Qed.

(** X1.  The login of [index.js] has two outcomes.  Either it answers 401
    and leaves the session and the cookies alone, or a stored user with
    the request's email accepts the request's password, and then the
    session holds that user's identifier and the jwt cookie is signed for
    it.  In both, the collections and the reminder jobs are as before. *)
Theorem login_outcome (body : Credentials) (s : State) :
  let r := App.post_login body s in
  users r.2 = users s /\ tasks r.2 = tasks s /\ cronJobs r.2 = cronJobs s /\
  ((r.1 = Normal (render 401 (view_error "Invalid email or password")) /\
    session r.2 = session s /\ cookies r.2 = cookies s) \/
   (exists id d,
      users s !! id = Some d /\ ud_email d = cred_email body /\
      comparePassword (id, d) (cred_password body) = true /\
      r.1 = Normal (redirect "/tasks") /\
      session r.2 = mkSession (Some id) /\
      cookies r.2 = cookies s ++ [("jwt", jwt_sign id)])).
Proof.
  intros r. subst r.
  unfold App.post_login, wrapAsync, try_catch, bind, User_findOne, get, ret. simpl.
  destruct (head (filter _ (documents (users s)))) as [[id d]|] eqn:E.
  - apply findOne_Some in E as [Hm He]. simpl in Hm, He.
    destruct (comparePassword (id, d) (cred_password body)) eqn:Hp; simpl.
    + repeat split. right. exists id, d. done.
    + repeat split. by left.
  - simpl. repeat split. by left.
Qed.

(** X3.  Signing up and then logging in with the same credentials: when
    no stored user has the email, and bcrypt accepts a password against
    its own hash, the signup succeeds, and the login that follows it
    succeeds and records the new user's identifier in the session. *)
Theorem signup_then_login (body : Credentials) (s : State) :
  (forall id d, users s !! id = Some d -> ud_email d <> cred_email body) ->
  bcrypt_compare (cred_password body) (bcrypt_hash (cred_password body)) = true ->
  let r1 := App.post_signup body s in
  let r2 := App.post_login body r1.2 in
  r1.1 = Normal (redirect "/tasks") /\
  r2.1 = Normal (redirect "/tasks") /\
  session r2.2 = mkSession (Some (fresh (dom (users s)))).
Proof.
  intros Hnew Hb r1 r2. subst r1 r2.
  set (id := fresh (dom (users s))).
  set (d := mkUserData (cred_email body) (bcrypt_hash (cred_password body))).
  assert (Hs : App.post_signup body s =
    (Normal (redirect "/tasks"),
     mkState (<[id := d]> (users s)) (tasks s) (cronJobs s)
       (console s ++ [console_log "Session after signup:"]) (mailCalls s)
       (session s) (cookies s ++ [("jwt", jwt_sign id)]))).
  { unfold App.post_signup, wrapAsync, try_catch, bind.
    rewrite (User_create_fresh _ _ _ Hnew). reflexivity. }
  rewrite Hs. split; [done|]. simpl.
  assert (Hfresh : users s !! id = None) by apply not_elem_of_dom, is_fresh.
  unfold App.post_login, wrapAsync, try_catch, bind, User_findOne, get, ret. simpl.
  rewrite (findOne_unique _ (cred_email body) id d).
  - unfold comparePassword, user_password. subst d. simpl. rewrite Hb. simpl. done.
  - apply lookup_insert_eq.
  - reflexivity.
  - intros id' d' Hm He. rewrite lookup_insert in Hm.
    case_decide; [done|]. by destruct (Hnew id' d' Hm).
Qed.

Lemma findOne_None (m : gmap string UserData) (email : string) :
  head (filter (fun u => user_email u = email) (documents m)) = None ->
  forall id d, m !! id = Some d -> ud_email d <> email.
Proof.
  intros H id d Hm He. apply head_None in H.
  apply (filter_nil_not_elem_of _ _ (id, d)) in H; [|done].
  apply H. by apply elem_of_map_to_list.
Qed.

(** X20.  Signup keeps emails unique.  If no two stored users share an
    email before a signup request, none do after it, whether the signup
    of [index.js] or of [routes/user.js] handled it and whether it
    succeeded or failed. *)
Theorem signup_keeps_emails_unique (body : Credentials) (s : State) :
  unique_emails (users s) ->
  unique_emails (users (App.post_signup body s).2) /\
  unique_emails (users (UserRouter.post_signup body s).2).
Proof.
  intros Huniq.
  destruct (head (filter (fun u => user_email u = cred_email body)
                    (documents (users s)))) as [u|] eqn:E.
  - apply findOne_Some in E as [Hm He].
    pose proof (User_create_duplicate _ (cred_password body) _ _ s Hm He) as Hc.
    unfold App.post_signup, UserRouter.post_signup, wrapAsync, try_catch, bind.
    rewrite Hc. simpl. done.
  - pose proof (findOne_None _ _ E) as Hnew.
    unfold App.post_signup, UserRouter.post_signup, wrapAsync, try_catch, bind.
    rewrite (User_create_fresh _ _ _ Hnew). simpl.
    assert (Hfresh : users s !! fresh (dom (users s)) = None)
      by apply not_elem_of_dom, is_fresh.
    assert (Hins : unique_emails
              (<[fresh (dom (users s)) :=
                   mkUserData (cred_email body) (bcrypt_hash (cred_password body))]>
                 (users s))).
    { intros id1 id2 d1 d2 H1 H2 He.
      set (id := fresh (dom (users s))) in *.
      destruct (decide (id = id1)) as [<-|N1], (decide (id = id2)) as [<-|N2]; [done|..].
      - rewrite lookup_insert_eq in H1. rewrite lookup_insert_ne in H2 by done.
        injection H1 as <-. simpl in He. by destruct (Hnew id2 d2 H2).
      - rewrite lookup_insert_eq in H2. rewrite lookup_insert_ne in H1 by done.
        injection H2 as <-. simpl in He. by destruct (Hnew id1 d1 H1).
      - rewrite lookup_insert_ne in H1, H2 by done.
        by apply (Huniq id1 id2 d1 d2). }
    done.
Qed.

End LoginFacts.

(** ** Showing, editing and deleting a task *)

Section TaskFacts.
Context {rt : Runtime}.
Import Clock Cron Store Scheduler App Trace.

Lemma set_tasks_id (f : gmap string TaskData -> gmap string TaskData) (s : State) :
  f (tasks s) = tasks s -> set_tasks f s = s.
Proof. intros H. unfold set_tasks. rewrite H. apply state_eta. Qed.

Lemma get_task_found (id : string) (d : TaskData) (s : State) :
  truthy (sess_userId (session s)) = true ->
  tasks s !! id = Some d ->
  get_task id s = (Normal (render 200 (view_show (id, d))), s).
Proof.
  intros Hauth Hd. unfold get_task. rewrite protect_authenticated by done.
  unfold wrapAsync, try_catch, Task_findById, document.
  unfold bind at 1. unfold bind at 1, get at 1. cbv beta iota.
  unfold bind at 1. rewrite castObjectId_ok by eauto.
  unfold ret. by rewrite Hd.
Qed.

Lemma get_task_absent (id : string) (s : State) :
  truthy (sess_userId (session s)) = true ->
  tasks s !! id = None ->
  isObjectId id = true ->
  get_task id s =
  (Normal (render 404 (view_error "Task not found")),
   failed (AppError "Task not found" 404) s).
Proof.
  intros Hauth Hd Hid. unfold get_task. rewrite protect_authenticated by done.
  unfold wrapAsync, try_catch, Task_findById, document.
  unfold bind at 1. unfold bind at 1, get at 1. cbv beta iota.
  unfold bind at 1. rewrite castObjectId_ok by eauto.
  unfold ret. by rewrite Hd.
Qed.

Lemma delete_task_spec (id : string) (s : State) :
  truthy (sess_userId (session s)) = true ->
  is_Some (tasks s !! id) \/ isObjectId id = true ->
  delete_task id s = (Normal (redirect "/tasks"), set_tasks (delete id) s).
Proof.
  intros Hauth Hid. unfold delete_task. rewrite protect_authenticated by done.
  unfold bind at 1, get at 1. cbv beta iota.
  unfold bind at 1. by rewrite castObjectId_ok.
Qed.

(** X4.  Deleting is idempotent for a well-formed identifier.  Under an
    authenticated session the delete route redirects to [/tasks]; after
    it the task is gone and showing it answers 404; deleting it once
    more, or deleting a well-formed identifier that was never stored,
    changes nothing.  For a string that is no identifier and names no
    task, the query rejects and the handler, which catches nothing,
    answers nothing. *)
Theorem delete_idempotent (id : string) (s : State) :
  truthy (sess_userId (session s)) = true ->
  isObjectId id = true ->
  let r := delete_task id s in
  r.1 = Normal (redirect "/tasks") /\
  tasks r.2 !! id = None /\
  (get_task id r.2).1 = Normal (render 404 (view_error "Task not found")) /\
  delete_task id r.2 = (Normal (redirect "/tasks"), r.2) /\
  (tasks s !! id = None -> r.2 = s) /\
  (forall id', tasks s !! id' = None -> isObjectId id' = false ->
     delete_task id' s = (Throw (CastError (castMessage "_id" id')), s)).
Proof.
  intros Hauth Hid r. subst r. rewrite delete_task_spec by eauto. simpl.
  split; [done|]. split; [apply lookup_delete_eq|]. split; [|split; [|split]].
  - rewrite get_task_absent; [done|done| |done]. apply lookup_delete_eq.
  - rewrite delete_task_spec by eauto. f_equal. apply set_tasks_id. simpl.
    apply delete_id, lookup_delete_eq.
  - intros Hn. apply set_tasks_id. by apply delete_id.
  - intros id' Hn Hbad. unfold delete_task. rewrite protect_authenticated by done.
    unfold bind at 1, get at 1. cbv beta iota.
    unfold bind at 1. by rewrite castObjectId_malformed.
Qed.

(** The edit route, for an update whose fields pass the validators. *)
Lemma put_task_edit_valid (id : string) (body : TaskUpdate) (deadline : option Z) (s : State) :
  truthy (sess_userId (session s)) = true ->
  is_Some (tasks s !! id) \/ isObjectId id = true ->
  update_deadline body = Some deadline ->
  upd_title body <> Some EmptyString ->
  put_task_edit id body s =
  (Normal (redirect ("/tasks/" ++ id)),
   set_tasks (alter (apply_update body deadline) id) s).
Proof.
  intros Hauth Hid Hd Ht. unfold put_task_edit. rewrite protect_authenticated by done.
  unfold wrapAsync, try_catch, bind.
  by rewrite (Task_findByIdAndUpdate_valid id body deadline).
Qed.

(** The edit route, when the query rejects: the error page, and no
    change but the console line. *)
Lemma put_task_edit_rejected (id : string) (body : TaskUpdate) (s : State) :
  truthy (sess_userId (session s)) = true ->
  (tasks s !! id = None /\ isObjectId id = false) \/
  update_deadline body = None \/ upd_title body = Some EmptyString ->
  exists e, err_statusCode e = None /\
    put_task_edit id body s = (Normal (render 500 (view_error (shown e))), failed e s).
Proof.
  intros Hauth Hbad. unfold put_task_edit. rewrite protect_authenticated by done.
  unfold wrapAsync, try_catch, Task_findByIdAndUpdate, cast_deadline.
  unfold bind at 1. unfold bind at 1, get at 1. cbv beta iota.
  unfold bind at 1.
  destruct (tasks s !! id) as [d|] eqn:Hd.
  - rewrite castObjectId_ok by (rewrite Hd; eauto).
    destruct Hbad as [[? _]|Hbad]; [done|].
    destruct (update_deadline body) as [dl|] eqn:Hdl.
    + destruct Hbad as [?|Ht]; [done|]. rewrite Ht. eexists. split; [|reflexivity]. done.
    + eexists. split; [|reflexivity]. done.
  - destruct (isObjectId id) eqn:Hid.
    + rewrite castObjectId_ok by eauto.
      destruct Hbad as [[_ ?]|Hbad]; [done|].
      destruct (update_deadline body) as [dl|] eqn:Hdl.
      * destruct Hbad as [?|Ht]; [done|]. rewrite Ht. eexists. split; [|reflexivity]. done.
      * eexists. split; [|reflexivity]. done.
    + rewrite castObjectId_malformed by done. eexists. split; [|reflexivity]. done.
Qed.

(** X5.  An edit of a well-formed identifier that is not stored is no
    error: with fields that pass the validators the route redirects to
    the page of that identifier and changes nothing, and that page
    answers 404. *)
Theorem edit_of_absent_task (id : string) (body : TaskUpdate) (deadline : option Z)
    (s : State) :
  truthy (sess_userId (session s)) = true ->
  tasks s !! id = None ->
  isObjectId id = true ->
  update_deadline body = Some deadline ->
  upd_title body <> Some EmptyString ->
  put_task_edit id body s = (Normal (redirect ("/tasks/" ++ id)), s) /\
  (get_task id s).1 = Normal (render 404 (view_error "Task not found")).
Proof.
  intros Hauth Hn Hid Hd Ht. split.
  - rewrite (put_task_edit_valid id body deadline) by eauto. f_equal.
    apply set_tasks_id. apply map_eq. intros i. rewrite lookup_alter.
    case_decide; [subst; by rewrite Hn|done].
  - by rewrite get_task_absent.
Qed.

(** X6.  Whatever the identifier and the fields of an edit, the route
    leaves every other task, the users, the session and the reminder
    jobs as they were; and an edit whose deadline is no date answers with
    a 500 error page and leaves the edited task as it was too. *)
Theorem edit_leaves_rest (id : string) (body : TaskUpdate) (s : State) :
  truthy (sess_userId (session s)) = true ->
  let r := put_task_edit id body s in
  (forall id', id' <> id -> tasks r.2 !! id' = tasks s !! id') /\
  users r.2 = users s /\ cronJobs r.2 = cronJobs s /\ session r.2 = session s /\
  (update_deadline body = None ->
   (exists msg, r.1 = Normal (render 500 (view_error msg))) /\
   tasks r.2 = tasks s).
Proof.
  intros Hauth r. subst r.
  destruct (update_deadline body) as [deadline|] eqn:Hd.
  - destruct (decide (upd_title body = Some EmptyString)) as [Ht|Ht].
    { destruct (put_task_edit_rejected id body s Hauth) as (e & _ & ->); [eauto|].
      simpl. done. }
    destruct (tasks s !! id) as [d|] eqn:Hs.
    + rewrite (put_task_edit_valid id body deadline) by (rewrite ?Hs; eauto). simpl.
      split; [|done]. intros id' Hne. by rewrite lookup_alter_ne.
    + destruct (isObjectId id) eqn:Hid.
      * rewrite (put_task_edit_valid id body deadline) by eauto. simpl.
        split; [|done]. intros id' Hne. by rewrite lookup_alter_ne.
      * destruct (put_task_edit_rejected id body s Hauth) as (e & _ & ->); [eauto|].
        simpl. done.
  - destruct (put_task_edit_rejected id body s Hauth) as (e & _ & ->); [eauto|].
    simpl. repeat (split; [done|]). intros _. eauto.
Qed.

End TaskFacts.

(** ** Reminders and the life of a task *)

Section LifecycleFacts.
Context {rt : Runtime}.
Import Clock Cron Store Scheduler App Trace.

(** The pattern of a reminder matches at the start of the reminder's
    minute on any day, before or after. *)
Lemma matches_any_day (r k : Z) :
  matches (mkPattern (getMinutes r) (getHours r)) (minuteStart r + k * DAY) = true.
Proof.
  apply matches_reminder_iff.
  replace (minuteStart r + k * DAY - minuteStart r) with (k * DAY) by lia.
  rewrite Z.mod_mul by (rewrite DAY_eq; lia). unfold SECOND. lia.
Qed.

(** A tick that matches the pattern of the last registered job mails that
    job's reminder last. *)
Lemma cron_tick_last (t : Z) (s : State) (js : list Job) (j : Job) :
  cronJobs s = js ++ [j] ->
  matches (job_pattern j) t = true ->
  last (mailCalls (cron_tick t s).2) = Some (reminderMail j) /\
  cronJobs (cron_tick t s).2 = cronJobs s.
Proof.
  intros Hjs Hm. rewrite cron_tick_spec. simpl. split; [|done].
  rewrite Hjs, filter_app, map_app, app_assoc.
  rewrite filter_cons_True by done. rewrite filter_nil. simpl. apply last_snoc.
Qed.

(** The state after a creation request that passes all checks, under an
    authenticated session. *)
Lemma post_tasks_new_created (now : Z) (body : NewTask) (s : State) (d : Z) (u : UserData) :
  truthy (sess_userId (session s)) = true ->
  present body = true ->
  Date_parse (js_str (nt_deadline body)) = Some d ->
  now + HOUR < d ->
  users s !! js_str (nt_userId body) = Some u ->
  post_tasks_new now body s =
  (Normal (redirect "/tasks"),
   mkState (users s)
     (<[fresh (dom (tasks s)) :=
          mkTaskData (js_str (nt_title body)) (nt_description body) d
            (js_str (nt_userId body)) (ud_email u)]> (tasks s))
     (cronJobs s ++ [reminderJob (ud_email u) (js_str (nt_title body))
                       (nt_description body) d])
     (console s) (mailCalls s) (session s) (cookies s)).
Proof.
  intros Hauth Hp Hd Hlt Hu. unfold post_tasks_new.
  rewrite protect_authenticated by done. by apply handler_created.
Qed.

(** X7.  Deleting a task does not cancel its reminder.  After a task has
    been created and then deleted, the task is gone from the collection,
    its reminder job is still registered, and the tick of the reminder's
    minute, on any day [k], mails the reminder of the deleted task. *)
Theorem deleted_task_still_reminded (now : Z) (body : NewTask) (s : State)
    (d : Z) (u : UserData) (k : nat) :
  truthy (sess_userId (session s)) = true ->
  present body = true ->
  Date_parse (js_str (nt_deadline body)) = Some d ->
  now + HOUR < d ->
  users s !! js_str (nt_userId body) = Some u ->
  let id := fresh (dom (tasks s)) in
  let j := reminderJob (ud_email u) (js_str (nt_title body)) (nt_description body) d in
  let s1 := (post_tasks_new now body s).2 in
  let s2 := (delete_task id s1).2 in
  let s3 := (cron_tick (minuteStart (d - HOUR) + Z.of_nat k * DAY) s2).2 in
  is_Some (tasks s1 !! id) /\
  tasks s2 !! id = None /\
  cronJobs s2 = cronJobs s ++ [j] /\
  last (mailCalls s3) = Some (reminderMail j).
Proof.
  intros Hauth Hp Hd Hlt Hu id j s1 s2 s3. subst s1 s2 s3.
  rewrite (post_tasks_new_created now body s d u) by done. simpl.
  rewrite delete_task_spec by (simpl; rewrite ?lookup_insert_eq; eauto). simpl.
  split; [rewrite lookup_insert_eq; eauto|].
  split; [apply lookup_delete_eq|]. split; [done|].
  eapply cron_tick_last; [reflexivity|]. simpl. apply matches_any_day.
Qed.

(** X8.  Editing a task does not reschedule its reminder.  After a task
    has been created and its deadline then edited, the stored task has
    the new deadline, but the job table is as the creation left it: the
    tick of the old reminder's minute mails the reminder with the old
    deadline. *)
Theorem edited_task_keeps_old_reminder (now : Z) (body : NewTask) (s : State)
    (d : Z) (u : UserData) (edit : TaskUpdate) (d' : Z) (k : nat) :
  truthy (sess_userId (session s)) = true ->
  present body = true ->
  Date_parse (js_str (nt_deadline body)) = Some d ->
  now + HOUR < d ->
  users s !! js_str (nt_userId body) = Some u ->
  update_deadline edit = Some (Some d') ->
  upd_title edit <> Some EmptyString ->
  let id := fresh (dom (tasks s)) in
  let j := reminderJob (ud_email u) (js_str (nt_title body)) (nt_description body) d in
  let s1 := (post_tasks_new now body s).2 in
  let s2 := (put_task_edit id edit s1).2 in
  let s3 := (cron_tick (minuteStart (d - HOUR) + Z.of_nat k * DAY) s2).2 in
  (exists t, tasks s2 !! id = Some t /\ td_deadline t = d') /\
  cronJobs s2 = cronJobs s ++ [j] /\
  job_taskDeadline j = d /\
  last (mailCalls s3) = Some (reminderMail j).
Proof.
  intros Hauth Hp Hd Hlt Hu He Ht id j s1 s2 s3. subst s1 s2 s3.
  rewrite (post_tasks_new_created now body s d u) by done. simpl.
  rewrite (put_task_edit_valid _ edit (Some d'))
    by (simpl; rewrite ?lookup_insert_eq; eauto). simpl.
  split; [|split; [done|split; [done|]]].
  - rewrite lookup_alter_eq, lookup_insert_eq. simpl. eauto.
  - eapply cron_tick_last; [reflexivity|]. simpl. apply matches_any_day.
Qed.

End LifecycleFacts.

(** ** What the list read keeps *)

Section SweepFacts.
Context {rt : Runtime}.
Import Clock Store Scheduler App Trace.

(** A crossed task was past its deadline at the clock reading of its
    visit, and was among the visited ones. *)
Lemma crossed_elem (clock : nat -> Z) (l : list Task) (i : nat) (t : Task) :
  t ∈ crossed clock i l -> t ∈ l /\ exists n, task_deadline t < clock n.
Proof.
  revert i. induction l as [|x l IH]; intros i H; simpl in *.
  - by apply elem_of_nil in H.
  - destruct (task_deadline x <? clock i) eqn:E.
    + apply elem_of_cons in H as [->|H].
      * split; [left|]. exists i. by apply Z.ltb_lt.
      * destruct (IH (S i) H) as [Hin Hn]. split; [by right|done].
    + destruct (IH (S i) H) as [Hin Hn]. split; [by right|done].
Qed.

(** X11.  The sweep of the list read deletes nothing else.  Under an
    authenticated session, a stored task stays in the collection, with
    the same fields, if it belongs to another user, or if no clock reading
    of the request is past its deadline; and the users and the reminder
    jobs are untouched. *)
Theorem sweep_keeps_the_rest (clock : nat -> Z) (s : State) (id : string) (d : TaskData) :
  truthy (sess_userId (session s)) = true ->
  tasks s !! id = Some d ->
  Some (td_user d) <> sess_userId (session s) \/ (forall n, clock n <= td_deadline d) ->
  let r := get_tasks clock s in
  tasks r.2 !! id = Some d /\ users r.2 = users s /\ cronJobs r.2 = cronJobs s.
Proof.
  intros Hauth Hd Hkeep r. subst r. rewrite get_tasks_spec by done. simpl.
  split; [|done]. rewrite lookup_sweep_keep; [done|].
  intros Hin. apply list_elem_of_fmap in Hin as ([id' d'] & Hid & Hc).
  simpl in Hid. subst id'.
  apply crossed_elem in Hc as [Hall [n Hn]].
  apply list_elem_of_filter in Hall as [Hu Hm].
  apply elem_of_map_to_list in Hm. rewrite Hd in Hm. injection Hm as <-.
  unfold task_user, task_deadline in *. simpl in *.
  destruct Hkeep as [Hother|Hfuture]; [done|].
  specialize (Hfuture n). lia.
Qed.

(** X12.  A task that has just been created shows up.  After a creation
    request that passes all checks, showing the new identifier renders the
    task, and a list read whose clock readings are not past the deadline
    lists the task exactly when the body's [userId] is the session's
    user. *)
Theorem created_task_shows_up (now : Z) (body : NewTask) (s : State) (d : Z)
    (u : UserData) (clock : nat -> Z) :
  truthy (sess_userId (session s)) = true ->
  present body = true ->
  Date_parse (js_str (nt_deadline body)) = Some d ->
  now + HOUR < d ->
  users s !! js_str (nt_userId body) = Some u ->
  (forall n, clock n <= d) ->
  let id := fresh (dom (tasks s)) in
  let data := mkTaskData (js_str (nt_title body)) (nt_description body) d
                (js_str (nt_userId body)) (ud_email u) in
  let s1 := (post_tasks_new now body s).2 in
  (get_task id s1).1 = Normal (render 200 (view_show (id, data))) /\
  exists remaining,
    (get_tasks clock s1).1 = Normal (render 200 (view_home remaining)) /\
    ((id, data) ∈ remaining <-> nt_userId body = sess_userId (session s)).
Proof.
  intros Hauth Hp Hd Hlt Hu Hclock id data s1. subst s1.
  rewrite (post_tasks_new_created now body s d u) by done. simpl.
  fold id data.
  set (s1 := mkState _ _ _ _ _ _ _).
  assert (Hauth1 : truthy (sess_userId (session s1)) = true) by done.
  assert (Hid : tasks s1 !! id = Some data) by apply lookup_insert_eq.
  split.
  - by rewrite (get_task_found id data).
  - rewrite get_tasks_spec by done. eexists. split; [reflexivity|].
    assert (Huid : nt_userId body = Some (js_str (nt_userId body))).
    { apply truthy_Some. unfold present in Hp.
      by destruct (truthy (nt_userId body)), (truthy (nt_title body)),
        (truthy (nt_deadline body)). }
    rewrite list_elem_of_filter. unfold documents.
    rewrite elem_of_map_to_list. simpl.
    split.
    + intros [Ho _]. unfold task_user in Ho. simpl in Ho. by rewrite Huid, Ho.
    + intros Ho. split.
      { unfold task_user. simpl. by rewrite <- Ho, <- Huid. }
      rewrite lookup_sweep_keep; [done|].
      intros Hin. apply list_elem_of_fmap in Hin as ([id' d'] & Hid' & Hc).
      simpl in Hid'. subst id'.
      apply crossed_elem in Hc as [Hall [n Hn]].
      apply list_elem_of_filter in Hall as [_ Hm].
      apply elem_of_map_to_list in Hm. simpl in Hm.
      fold id data in Hm. rewrite lookup_insert_eq in Hm. injection Hm as <-.
      unfold task_deadline in Hn. simpl in Hn. specialize (Hclock n). lia.
Qed.

End SweepFacts.

(** * The remaining routes of [index.js] *)

(** ** The edit form *)

Section IsoFacts.
Import Clock Iso.

Lemma app_String (a : Ascii.ascii) (s1 s2 : string) :
  (String a s1 ++ s2)%string = String a (s1 ++ s2)%string.
Proof. reflexivity. Qed.

Lemma app_Empty (s : string) : (EmptyString ++ s)%string = s.
Proof. reflexivity. Qed.

Lemma string_length_app (s1 s2 : string) :
  String.length (s1 ++ s2)%string = (String.length s1 + String.length s2)%nat.
Proof.
  induction s1 as [|a s1 IH]; [done|]. rewrite app_String. simpl. by rewrite IH.
Qed.

Lemma string_app_assoc (s1 s2 s3 : string) :
  ((s1 ++ s2) ++ s3)%string = (s1 ++ (s2 ++ s3))%string.
Proof.
  induction s1 as [|a s1 IH]; [done|]. by rewrite !app_String, IH.
Qed.

Lemma free_app (c : Ascii.ascii) (s1 s2 : string) :
  free c (s1 ++ s2)%string = free c s1 && free c s2.
Proof.
  induction s1 as [|a s1 IH]; [done|]. rewrite app_String. simpl.
  by rewrite IH, andb_assoc.
Qed.

Lemma free_digit (z : Z) : free char_T (digit z) = true.
Proof.
  unfold digit.
  assert (H : (Z.to_nat (z mod 10) < 10)%nat).
  { pose proof (Z.mod_pos_bound z 10 ltac:(lia)). lia. }
  revert H. generalize (Z.to_nat (z mod 10)). intros n H.
  do 10 (destruct n as [|n]; [reflexivity|]). lia.
Qed.

Lemma free_pad (n : nat) (z : Z) : free char_T (pad n z) = true.
Proof.
  revert z. induction n as [|n IH]; intros z; [done|].
  cbn [pad]. by rewrite free_app, IH, free_digit.
Qed.

Lemma free_year_text (y : Z) : free char_T (year_text y) = true.
Proof.
  unfold year_text. destruct ((0 <=? y) && (y <=? 9999)); [apply free_pad|].
  rewrite free_app, free_pad. by destruct (y <? 0).
Qed.

Lemma free_date_text (t : Z) : free char_T (date_text t) = true.
Proof.
  unfold date_text. destruct (civil (t / DAY)) as [[y m] d].
  by rewrite !free_app, free_year_text, !free_pad.
Qed.

Lemma free_time_text (t : Z) : free char_T (time_text t) = true.
Proof. unfold time_text. by rewrite !free_app, !free_pad. Qed.

(** Splitting a text without the separator gives the text back. *)
Lemma split_free (c : Ascii.ascii) (s : string) : free c s = true -> split c s = [s].
Proof.
  induction s as [|a s IH]; simpl; [done|].
  intros [Ha Hs]%andb_true_iff. apply negb_true_iff in Ha. rewrite Ha.
  by rewrite (IH Hs).
Qed.

(** Splitting cuts at the first separator. *)
Lemma split_app (c : Ascii.ascii) (s1 s2 : string) :
  free c s1 = true -> split c (s1 ++ String c s2)%string = s1 :: split c s2.
Proof.
  induction s1 as [|a s1 IH].
  - intros _. rewrite app_Empty. simpl. by rewrite Ascii.eqb_refl.
  - rewrite app_String. simpl.
    intros [Ha Hs]%andb_true_iff. apply negb_true_iff in Ha. rewrite Ha.
    by rewrite (IH Hs).
Qed.

Lemma length_pad (n : nat) (z : Z) : String.length (pad n z) = n.
Proof.
  revert z. induction n as [|n IH]; intros z; [done|].
  cbn [pad]. rewrite string_length_app, IH. simpl. lia.
Qed.

Lemma substring_prefix (s1 s2 : string) :
  String.substring 0 (String.length s1) (s1 ++ s2)%string = s1.
Proof.
  induction s1 as [|a s1 IH].
  - rewrite app_Empty. by destruct s2.
  - rewrite app_String. simpl. by rewrite IH.
Qed.

(** The text of a time of day in range is its first five characters, a
    colon and the rest. *)
Lemma time_text_prefix (t : Z) :
  String.substring 0 5 (time_text t)
  = (pad 2 ((t / HOUR) mod 24) ++ ":" ++ pad 2 ((t / MINUTE) mod 60))%string.
Proof.
  unfold time_text.
  set (hm := (pad 2 ((t / HOUR) mod 24) ++ ":" ++ pad 2 ((t / MINUTE) mod 60))%string).
  assert (Hlen : String.length hm = 5%nat).
  { unfold hm. rewrite !string_length_app, !length_pad. reflexivity. }
  rewrite <- Hlen at 1.
  replace (pad 2 ((t / HOUR) mod 24) ++ ":" ++ pad 2 ((t / MINUTE) mod 60) ++ ":"
           ++ pad 2 ((t / SECOND) mod 60) ++ "." ++ pad 3 (t mod 1000) ++ "Z")%string
    with (hm ++ (":" ++ pad 2 ((t / SECOND) mod 60) ++ "." ++ pad 3 (t mod 1000) ++ "Z"))%string.
  - apply substring_prefix.
  - unfold hm. by rewrite !string_app_assoc.
Qed.

(** The ISO text splits at its [T] into the date and the time. *)
Lemma split_iso (t : Z) :
  split char_T (date_text t ++ "T" ++ time_text t)%string = [date_text t; time_text t].
Proof.
  change (date_text t ++ "T" ++ time_text t)%string
    with (date_text t ++ String char_T (time_text t))%string.
  rewrite split_app by apply free_date_text.
  by rewrite split_free by apply free_time_text.
Qed.

End IsoFacts.

Section PagesFacts.
Context {rt : Runtime}.
Import Clock Store App Iso Pages Trace.

Lemma guard_authenticated {A} (denied : A) (handler : M A) (s : State) :
  truthy (sess_userId (session s)) = true -> guard denied handler s = handler s.
Proof. intros H. unfold guard, bind, get. cbv beta iota. by rewrite H. Qed.

Lemma guard_anonymous {A} (denied : A) (handler : M A) (s : State) :
  truthy (sess_userId (session s)) = false -> guard denied handler s = (Normal denied, s).
Proof. intros H. unfold guard, bind, get. cbv beta iota. by rewrite H. Qed.

(** X13.  The edit form shows the deadline in local time.  Under an
    authenticated session, for a stored task whose local deadline is in
    the range of dates, the form is rendered with the ISO date of the
    local deadline and with the local hour and minute of the deadline,
    two digits each, the ones that the reminder's cron pattern is made
    of an hour later. *)
Theorem edit_form_shows_local_time (id : string) (d : TaskData) (s : State) :
  truthy (sess_userId (session s)) = true ->
  tasks s !! id = Some d ->
  Z.abs (td_deadline d + tzOffset) <= MAX_TIME ->
  get_task_edit id s =
  (Normal (rendered (page_edit (id, d)
     (date_text (td_deadline d + tzOffset))
     (pad 2 (getHours (td_deadline d)) ++ ":" ++ pad 2 (getMinutes (td_deadline d))))), s).
Proof.
  intros Hauth Hd Hrange. unfold get_task_edit.
  rewrite guard_authenticated by done.
  unfold Pages.wrapAsync, try_catch, Task_findById, document, toISOString, new_Date.
  unfold bind at 1. unfold bind at 1, get at 1. cbv beta iota.
  unfold bind at 1. rewrite castObjectId_ok by eauto.
  unfold bind, ret. cbv beta iota. rewrite Hd. cbv beta iota zeta.
  unfold task_deadline. simpl.
  apply Z.ltb_ge in Hrange. rewrite Hrange.
  rewrite split_iso. by rewrite time_text_prefix.
Qed.

(** X14.  The edit form answers 404 for a well-formed identifier that is
    not stored, and 500 for a string that is no identifier and for a
    task whose local deadline is out of the range of dates; none of them
    changes the collections. *)
Theorem edit_form_errors (id : string) (s : State) :
  truthy (sess_userId (session s)) = true ->
  let r := get_task_edit id s in
  (tasks s !! id = None -> isObjectId id = true ->
   r.1 = Normal (reply (render 404 (view_error "Task not found")))) /\
  (tasks s !! id = None -> isObjectId id = false ->
   exists msg, r.1 = Normal (reply (render 500 (view_error msg)))) /\
  (forall d, tasks s !! id = Some d -> MAX_TIME < Z.abs (td_deadline d + tzOffset) ->
   r.1 = Normal (reply (render 500 (view_error "Invalid time value")))) /\
  tasks r.2 = tasks s /\ users r.2 = users s.
Proof.
  intros Hauth r. subst r.
  assert (Hstep : forall c,
            castObjectId (tasks s) id s = (c, s) ->
            get_task_edit id s =
            Pages.wrapAsync (
              task <~ (fun s0 => match c with
                                 | Normal a => (Normal (document (tasks s) a), s0)
                                 | Throw e => (Throw e, s0)
                                 end) ;;
              match task with
              | None => r <~ next_err (AppError "Task not found" 404) ;; ret (reply r)
              | Some task =>
                  let deadline := task_deadline task + tzOffset in
                  iso <~ toISOString deadline ;;
                  iso' <~ toISOString deadline ;;
                  match split char_T iso, split char_T iso' with
                  | deadlineDate :: _, _ :: part :: _ =>
                      ret (rendered (page_edit task deadlineDate
                                       (String.substring 0 5 part)))
                  | _, _ => throw TypeError
                  end
              end) s).
  { intros c Hc. unfold get_task_edit. rewrite guard_authenticated by done.
    unfold Pages.wrapAsync, try_catch, Task_findById.
    unfold bind at 1. unfold bind at 1, get at 1. cbv beta iota.
    unfold bind at 1. rewrite Hc.
    unfold bind at 5. by destruct c. }
  destruct (tasks s !! id) as [d|] eqn:Hd.
  - rewrite (Hstep (Normal id)) by (apply castObjectId_ok; rewrite Hd; eauto).
    unfold Pages.wrapAsync, try_catch, document, toISOString, new_Date.
    unfold bind, ret. cbv beta iota. rewrite Hd. cbv beta iota zeta.
    unfold task_deadline. simpl.
    destruct (MAX_TIME <? Z.abs (td_deadline d + tzOffset)) eqn:E.
    + simpl. do 2 (split; [done|]). split; [|done]. by intros d' [= <-] _.
    + rewrite split_iso. simpl.
      do 2 (split; [done|]). split; [|done].
      intros d' [= <-] H. apply Z.ltb_ge in E. lia.
  - destruct (isObjectId id) eqn:Hid.
    + rewrite (Hstep (Normal id)) by (apply castObjectId_ok; eauto).
      unfold Pages.wrapAsync, try_catch, document.
      unfold bind, ret. cbv beta iota. rewrite Hd. simpl.
      split; [done|]. split; [done|]. done.
    + rewrite (Hstep (Throw (CastError (castMessage "_id" id))))
        by (by apply castObjectId_malformed).
      unfold Pages.wrapAsync, try_catch, bind. simpl.
      split; [done|]. split; [eauto|]. done.
Qed.

(** X15.  After a logout whose session removal succeeds, the session has
    no user and the jwt cookie is cleared; every protected route then
    redirects to [/login] and changes nothing; the collections and the
    reminder jobs are as before the logout.  When the session store
    fails, the answer is 500 and the session stays. *)
Theorem logout_ends_session (s : State) :
  let r := get_logout None s in
  r.1 = Normal (reply (redirect "/login")) /\
  sess_userId (session r.2) = None /\
  last (cookies r.2) = Some ("jwt", EmptyString) /\
  users r.2 = users s /\ tasks r.2 = tasks s /\ cronJobs r.2 = cronJobs s /\
  (forall clock, get_tasks clock r.2 = (Normal (redirect "/login"), r.2)) /\
  (forall now body, post_tasks_new now body r.2 = (Normal (redirect "/login"), r.2)) /\
  (forall id, get_task id r.2 = (Normal (redirect "/login"), r.2)) /\
  (forall id body, put_task_edit id body r.2 = (Normal (redirect "/login"), r.2)) /\
  (forall id, delete_task id r.2 = (Normal (redirect "/login"), r.2)) /\
  (forall id, get_task_edit id r.2 = (Normal (reply (redirect "/login")), r.2)) /\
  (forall err,
     (get_logout (Some err) s).1 = Normal (sent 500 "Error logging out") /\
     session (get_logout (Some err) s).2 = session s).
Proof.
  intros r. subst r. simpl.
  split; [done|]. split; [done|]. split; [apply last_snoc|].
  repeat (split; [done|]).
  repeat split; intros; by (apply protect_anonymous || apply guard_anonymous).
Qed.

End PagesFacts.

(** * The earlier versions: timers *)

Section LegacyFacts.
Context {rt : Runtime}.
Import Clock Store Scheduler App Trace Legacy.

(** X17.  When a [setTimeout] reminder is due.  The task route of the
    earlier version stores the document and starts one timer.  The timer
    is due an hour before the deadline when that time is a valid date
    from 1 to [TIMEOUT_MAX] milliseconds ahead; it is due after 1
    millisecond when the reminder time has passed, and also when the
    reminder time is more than [TIMEOUT_MAX] milliseconds (about 24.8
    days) ahead. *)
Theorem timeout_reminder_due (now : Z) (doc : TaskData) (timers : list Timer) (s : State) :
  truthy (sess_userId (session s)) = true ->
  td_title doc <> EmptyString ->
  let r := post_tasks now doc timers s in
  let id := fresh (dom (tasks s)) in
  let reminder := td_deadline doc - HOUR in
  exists due,
    r.1 = Normal (redirect ("/tasks/" ++ id),
                  timers ++ [mkTimer due (td_userEmail doc) (td_title doc)]) /\
    tasks r.2 = <[id := doc]> (tasks s) /\
    (Z.abs reminder <= Iso.MAX_TIME -> now < reminder <= now + TIMEOUT_MAX ->
     due = reminder) /\
    (reminder <= now -> due = now + 1) /\
    (now + TIMEOUT_MAX < reminder -> due = now + 1).
Proof.
  intros Hauth Ht r id reminder. subst r.
  unfold post_tasks. rewrite guard_authenticated by done.
  unfold try_catch, Task_save, Task_validate.
  apply String.eqb_neq in Ht. rewrite Ht.
  unfold bind, get, modify, ret. cbv beta iota zeta.
  eexists. split; [reflexivity|]. split; [reflexivity|].
  unfold task_deadline, timer_delay, TIMEOUT_MAX, Iso.new_Date. simpl.
  change (td_deadline doc - 3600 * 1000) with reminder. clearbody reminder.
  destruct (Iso.MAX_TIME <? Z.abs reminder) eqn:E0; simpl.
  - apply Z.ltb_lt in E0. repeat split; intros; lia.
  - repeat split.
    + intros _ H.
      destruct (reminder - now <? 1) eqn:E1; [apply Z.ltb_lt in E1; lia|].
      destruct (2147483647 <? reminder - now) eqn:E2; [apply Z.ltb_lt in E2; lia|].
      simpl. lia.
    + intros H.
      destruct (reminder - now <? 1) eqn:E1; [done|]. apply Z.ltb_ge in E1. lia.
    + intros H.
      destruct (2147483647 <? reminder - now) eqn:E2.
      * by rewrite orb_true_r.
      * apply Z.ltb_ge in E2. lia.
Qed.

(** X18.  The creation route of [part_001] mails the reminder at once.
    When the request passes all checks, the handler stores the task,
    calls the transport once with the reminder for the owner, registers
    no job, and redirects to [/tasks], whatever the transport answers and
    however far ahead the deadline is. *)
Theorem legacy_creation_mails_at_once (now : Z) (body : NewTask) (s : State)
    (d : Z) (u : UserData) :
  present body = true ->
  Date_parse (js_str (nt_deadline body)) = Some d ->
  now + HOUR < d ->
  users s !! js_str (nt_userId body) = Some u ->
  let r := Legacy.tasks_new_handler now body s in
  r.1 = Normal (redirect "/tasks") /\
  tasks r.2 = <[fresh (dom (tasks s)) :=
                 mkTaskData (js_str (nt_title body)) (nt_description body) d
                   (js_str (nt_userId body)) (ud_email u)]> (tasks s) /\
  mailCalls r.2 = mailCalls s ++ [reminderMail (ud_email u) (js_str (nt_title body))] /\
  cronJobs r.2 = cronJobs s.
Proof.
  intros H Hp Hd Hu r. subst r. unfold present in H.
  assert (Hd1 : (d <=? now) = false) by (apply Z.leb_gt; rewrite HOUR_eq in Hd; lia).
  apply Z.leb_gt in Hd.
  assert (Ht : String.eqb (js_str (nt_title body)) EmptyString = false).
  { apply truthy_js_str. by destruct (truthy (nt_title body)). }
  unfold Legacy.tasks_new_handler, try_catch.
  unfold User_findById, castObjectId, Task_save, Task_validate, sendReminderEmail,
    transporter_sendMail, next_err, handleValidationError, log, log_error, document.
  unfold try_catch, bind, get, modify, ret, throw. cbv beta iota zeta.
  rewrite <- !negb_andb, H, Hp. cbv beta iota delta [negb].
  rewrite Hd1. cbv beta iota delta [negb].
  fold HOUR. rewrite Hd. cbv beta iota delta [negb].
  rewrite Hu. cbv beta iota delta [negb].
  rewrite ?Hu. cbv beta iota delta [negb].
  simpl. rewrite Ht. simpl.
  destruct (sendMail _); simpl; done.
Qed.

End LegacyFacts.

(** * The further properties at concrete inputs *)

Section Concrete2.
Import Clock Cron Store Scheduler App Trace Iso Pages Legacy Demo Samples.

Lemma s_two_tasks (who : option string) (id : string) (d : TaskData) :
  tasks (s_two who) !! id = Some d ->
  (id = "t1" /\ d = rent) \/ (id = "t0" /\ d = old_task).
Proof.
  simpl. rewrite !lookup_insert_Some, lookup_empty.
  intros [[<- <-]|[_ [[<- <-]|[_ ?]]]]; [by left|by right|done].
Qed.

Lemma signup_then_login_witness :
  let body := mkCredentials "carol@example.com" "secret" in
  let r1 := App.post_signup (rt:=rt_ok) body (s_two None) in
  let r2 := App.post_login (rt:=rt_ok) body r1.2 in
  r1.1 = Normal (redirect "/tasks") /\
  r2.1 = Normal (redirect "/tasks") /\
  session r2.2 = mkSession (Some (fresh (dom (users (s_two None))))).
Proof.
  apply (signup_then_login (rt:=rt_ok) (mkCredentials "carol@example.com" "secret")
           (s_two None)).
  - intros id d Hm. apply s_two_users in Hm as [[-> ->]|[-> ->]]; discriminate.
  - reflexivity.
Defined.

Lemma delete_idempotent_witness :
  let r := delete_task (rt:=rt_ok) absent_id s_hex in
  is_Some (tasks s_hex !! absent_id) /\
  r.1 = Normal (redirect "/tasks") /\
  tasks r.2 !! absent_id = None /\
  delete_task (rt:=rt_ok) absent_id r.2 = (Normal (redirect "/tasks"), r.2) /\
  (exists e, delete_task (rt:=rt_ok) "t9" s_hex = (Throw e, s_hex)).
Proof.
  destruct (delete_idempotent (rt:=rt_ok) absent_id s_hex) as (H1 & H2 & _ & H4 & _ & H6);
    [reflexivity|reflexivity|].
  split; [by eexists|]. repeat (split; [assumption|]).
  eexists. apply H6; reflexivity.
Defined.

Lemma edit_of_absent_task_witness :
  let s := s_two (Some "u1") in
  let body := mkTaskUpdate (Some "Renamed") None None in
  put_task_edit (rt:=rt_ok) absent_id body s
    = (Normal (redirect ("/tasks/" ++ absent_id)), s) /\
  (get_task (rt:=rt_ok) absent_id s).1 = Normal (render 404 (view_error "Task not found")).
Proof.
  apply (edit_of_absent_task (rt:=rt_ok) absent_id (mkTaskUpdate (Some "Renamed") None None)
           None (s_two (Some "u1"))).
  - reflexivity.
  - reflexivity.
  - reflexivity.
  - reflexivity.
  - discriminate.
Defined.

Lemma edit_leaves_rest_witness :
  let s := s_two (Some "u2") in
  let body := mkTaskUpdate None None (Some "tomorrow") in
  let r := put_task_edit (rt:=rt_ok) "t1" body s in
  (forall id', id' <> "t1" -> tasks r.2 !! id' = tasks s !! id') /\
  users r.2 = users s /\ cronJobs r.2 = cronJobs s /\ session r.2 = session s /\
  (update_deadline (rt:=rt_ok) body = None ->
   (exists msg, r.1 = Normal (render 500 (view_error msg))) /\
   tasks r.2 = tasks s).
Proof.
  apply (edit_leaves_rest (rt:=rt_ok) "t1" (mkTaskUpdate None None (Some "tomorrow"))
           (s_two (Some "u2"))).
  reflexivity.
Defined.

Lemma edit_form_errors_witness :
  let s := s_two (Some "u2") in
  (get_task_edit (rt:=rt_ok) absent_id s).1
    = Normal (reply (render 404 (view_error "Task not found"))) /\
  (exists msg, (get_task_edit (rt:=rt_ok) "t9" s).1
                 = Normal (reply (render 500 (view_error msg)))).
Proof.
  split.
  - destruct (edit_form_errors (rt:=rt_ok) absent_id (s_two (Some "u2"))) as (H & _);
      [reflexivity|]. apply H; reflexivity.
  - destruct (edit_form_errors (rt:=rt_ok) "t9" (s_two (Some "u2"))) as (_ & H & _);
      [reflexivity|]. apply H; reflexivity.
Defined.

Lemma deleted_task_still_reminded_witness :
  let now := t2030 - 2 * HOUR in
  let s := s_two (Some "u1") in
  let j := reminderJob (rt:=rt_ok) "bob@example.com" "Pay rent" None t2030 in
  let s1 := (post_tasks_new (rt:=rt_ok) now rent_request s).2 in
  let s2 := (delete_task (rt:=rt_ok) (fresh (dom (tasks s))) s1).2 in
  let s3 := (cron_tick (rt:=rt_ok)
               (minuteStart (rt:=rt_ok) (t2030 - HOUR) + Z.of_nat 1 * DAY) s2).2 in
  is_Some (tasks s1 !! fresh (dom (tasks s))) /\
  tasks s2 !! fresh (dom (tasks s)) = None /\
  cronJobs s2 = cronJobs s ++ [j] /\
  last (mailCalls s3) = Some (Scheduler.reminderMail (rt:=rt_ok) j).
Proof.
  apply (deleted_task_still_reminded (rt:=rt_ok) (t2030 - 2 * HOUR) rent_request
           (s_two (Some "u1")) t2030 bob 1); reflexivity.
Defined.

Lemma edited_task_keeps_old_reminder_witness :
  let now := t2030 - 2 * HOUR in
  let s := s_two (Some "u1") in
  let edit := mkTaskUpdate None None (Some "2030-01-01T00:00:30Z") in
  let id := fresh (dom (tasks s)) in
  let j := reminderJob (rt:=rt_ok) "bob@example.com" "Pay rent" None t2030 in
  let s1 := (post_tasks_new (rt:=rt_ok) now rent_request s).2 in
  let s2 := (put_task_edit (rt:=rt_ok) id edit s1).2 in
  let s3 := (cron_tick (rt:=rt_ok)
               (minuteStart (rt:=rt_ok) (t2030 - HOUR) + Z.of_nat 0 * DAY) s2).2 in
  (exists t, tasks s2 !! id = Some t /\ td_deadline t = t2030 + 30000) /\
  cronJobs s2 = cronJobs s ++ [j] /\
  job_taskDeadline j = t2030 /\
  last (mailCalls s3) = Some (Scheduler.reminderMail (rt:=rt_ok) j).
Proof.
  apply (edited_task_keeps_old_reminder (rt:=rt_ok) (t2030 - 2 * HOUR) rent_request
           (s_two (Some "u1")) t2030 bob
           (mkTaskUpdate None None (Some "2030-01-01T00:00:30Z")) (t2030 + 30000) 0);
    (reflexivity || discriminate).
Defined.

Lemma sweep_keeps_the_rest_witness :
  let s := s_two (Some "u2") in
  let r := get_tasks (fun _ => t2030) s in
  tasks r.2 !! "t0" = Some old_task /\ users r.2 = users s /\ cronJobs r.2 = cronJobs s.
Proof.
  apply (sweep_keeps_the_rest (fun _ => t2030) (s_two (Some "u2")) "t0" old_task).
  - reflexivity.
  - reflexivity.
  - left. discriminate.
Defined.

Lemma created_task_shows_up_witness :
  let now := t2030 - 2 * HOUR in
  let s := s_two (Some "u2") in
  let id := fresh (dom (tasks s)) in
  let data := mkTaskData "Pay rent" None t2030 "u2" "bob@example.com" in
  let s1 := (post_tasks_new (rt:=rt_ok) now rent_request s).2 in
  (get_task (rt:=rt_ok) id s1).1 = Normal (render 200 (view_show (id, data))) /\
  exists remaining,
    (get_tasks (fun _ => now) s1).1 = Normal (render 200 (view_home remaining)) /\
    ((id, data) ∈ remaining <-> nt_userId rent_request = sess_userId (session s)).
Proof.
  apply (created_task_shows_up (rt:=rt_ok) (t2030 - 2 * HOUR) rent_request
           (s_two (Some "u2")) t2030 bob (fun _ => t2030 - 2 * HOUR));
    try reflexivity.
  intros _. vm_compute. discriminate.
Defined.

Lemma edit_form_shows_local_time_witness :
  get_task_edit (rt:=rt_ok) "t1" (s_two (Some "u2")) =
  (Normal (rendered (page_edit ("t1", rent) "2030-01-01" "00:00")), s_two (Some "u2")).
Proof.
  apply (edit_form_shows_local_time (rt:=rt_ok) "t1" rent (s_two (Some "u2"))).
  - reflexivity.
  - reflexivity.
  - vm_compute. discriminate.
Defined.

Lemma timeout_reminder_due_witness :
  let s := s_two (Some "u1") in
  let r := post_tasks t2030 far_task [] s in
  let id := fresh (dom (tasks s)) in
  let reminder := td_deadline far_task - HOUR in
  exists due,
    r.1 = Normal (redirect ("/tasks/" ++ id),
                  [] ++ [mkTimer due "alice@example.com" "Renew passport"]) /\
    tasks r.2 = <[id := far_task]> (tasks s) /\
    (Z.abs reminder <= MAX_TIME -> t2030 < reminder <= t2030 + TIMEOUT_MAX ->
     due = reminder) /\
    (reminder <= t2030 -> due = t2030 + 1) /\
    (t2030 + TIMEOUT_MAX < reminder -> due = t2030 + 1).
Proof.
  apply (timeout_reminder_due t2030 far_task [] (s_two (Some "u1"))).
  - reflexivity.
  - discriminate.
Defined.

(** A task due in thirty days: its timer is due a millisecond after the
    request. *)
Example timer_overflow :
  (post_tasks t2030 far_task [] (s_two (Some "u1"))).1 =
  Normal (redirect "/tasks/0", [mkTimer (t2030 + 1) "alice@example.com" "Renew passport"]).
Proof. vm_compute. done. Qed.

Lemma legacy_creation_mails_at_once_witness :
  let now := t2030 - 2 * HOUR in
  let s := s_two None in
  let r := Legacy.tasks_new_handler (rt:=rt_down) now rent_request s in
  r.1 = Normal (redirect "/tasks") /\
  tasks r.2 = <[fresh (dom (tasks s)) :=
                 mkTaskData "Pay rent" None t2030 "u2" "bob@example.com"]> (tasks s) /\
  mailCalls r.2 = mailCalls s ++
    [Legacy.reminderMail "bob@example.com" "Pay rent"] /\
  cronJobs r.2 = cronJobs s.
Proof.
  apply (legacy_creation_mails_at_once (rt:=rt_down) (t2030 - 2 * HOUR) rent_request
           (s_two None) t2030 bob); reflexivity.
Defined.

Lemma signup_keeps_emails_unique_witness :
  let body := mkCredentials "alice@example.com" "again" in
  unique_emails (users (App.post_signup (rt:=rt_ok) body (s_two None)).2) /\
  unique_emails (users (UserRouter.post_signup (rt:=rt_ok) body (s_two None)).2).
Proof.
  apply (signup_keeps_emails_unique (rt:=rt_ok)
           (mkCredentials "alice@example.com" "again") (s_two None)).
  intros id1 id2 d1 d2 H1 H2 He.
  apply s_two_users in H1 as [[-> ->]|[-> ->]];
    apply s_two_users in H2 as [[-> ->]|[-> ->]]; (reflexivity || discriminate He).
Defined.

End Concrete2.
